(** * ModelFusion: call orchestration, settings layering and tool use

    A shallow embedding of the TypeScript functions
      - [generateText] and [useTool],
      - [OpenAITextGenerationModel]
        ([src/provider/openai/text/OpenAITextGenerationModel.ts]),
      - [OpenAIImageGenerationModel]
        ([src/model-provider/openai/OpenAIImageGenerationModel.ts]),
    together with the theorems that relate them to the written
    specification of the orchestration layer. *)

From stdpp Require Import gmap strings list fin_maps pretty.
From Stdlib Require Import ZArith NArith QArith.

Local Open Scope Z_scope.
Local Open Scope string_scope.
Local Open Scope list_scope.

(* ===================================================================== *)
(** * JavaScript values, objects and strings                              *)
(* ===================================================================== *)

Module JS.

(** Object identities (references into the store). *)
Abbreviation loc := positive.

Section values.
Context {Host : Type}.

(** The JavaScript values that flow through the modelled code.  Numbers
    are only ever carried from one object to another by the functions
    below, never computed on, so an integer payload stands for them.
    [VRef] is a reference to a mutable object of the store; [VHost] is an
    object the modelled code only passes around or reads fields of
    (functions, abort signals, response formats). *)
Inductive value : Type :=
| VUndefined
| VNull
| VBool (b : bool)
| VNum (n : Z)
| VStr (s : string)
| VRef (l : loc)
| VHost (h : Host).

(** Property read [o.k] on a plain object (its own enumerable string-keyed
    properties): an absent key reads as [undefined].  A key can be present
    and hold [VUndefined]; that differs from an absent key for
    [Object.assign], spread and [Object.entries]. *)
Definition get (o : gmap string value) (k : string) : value :=
  default VUndefined (o !! k).

(** [v == null], the test behind [??]. *)
Definition nullish (v : value) : bool :=
  match v with VUndefined | VNull => true | _ => false end.

(** [a ?? b]. *)
Definition coalesce (a b : value) : value := if nullish a then b else a.

(** ToBoolean, the test behind [c ? x : y]. *)
Definition truthy (v : value) : bool :=
  match v with
  | VUndefined | VNull => false
  | VBool b => b
  | VNum n => negb (n =? 0)%Z
  | VStr s => negb (String.eqb s "")
  | VRef _ | VHost _ => true
  end.

(** ToString, as applied by a template literal. *)
Definition toString (v : value) : string :=
  match v with
  | VUndefined => "undefined"
  | VNull => "null"
  | VBool true => "true"
  | VBool false => "false"
  | VNum n => pretty n
  | VStr s => s
  | VRef _ | VHost _ => "[object Object]"
  end.

(** A destructuring default [{ k = d }]: used when the property reads
    [undefined]. *)
Definition with_default (v d : value) : value :=
  match v with VUndefined => d | _ => v end.

(** An optional string ([string | undefined]) as a value. *)
Definition of_opt_string (o : option string) : value :=
  match o with Some s => VStr s | None => VUndefined end.

(** An object literal [{ k1: v1, ..., kn: vn }]: properties are defined in
    order, a repeated key keeps the last value.  [Object.fromEntries]
    builds its result the same way. *)
Definition literal (l : list (string * value)) : gmap string value :=
  foldl (fun (m : gmap string value) (kv : string * value) =>
           <[kv.1 := kv.2]> m) ∅ l.

(** One step of [Object.assign], and the spread [...source] inside an
    object literal: every own property of [source] is written into
    [target]; a [None] source ([undefined] or [null]) is skipped. *)
Definition assign1 (target : gmap string value)
    (source : option (gmap string value)) : gmap string value :=
  match source with
  | Some s => s ∪ target
  | None => target
  end.

(** [Object.assign(target, ...sources)], as the resulting property map of
    [target]: sources are copied left to right. *)
Definition Object_assign (target : gmap string value)
    (sources : list (option (gmap string value))) : gmap string value :=
  foldl assign1 target sources.

(** [Object.entries(o)]. *)
Definition Object_entries (o : gmap string value) : list (string * value) :=
  map_to_list o.

(** [Object.fromEntries(l)]. *)
Definition Object_fromEntries (l : list (string * value))
  : gmap string value := literal l.

End values.

Arguments value : clear implicits.

Abbreviation obj Host := (gmap string (value Host)).

(** [arr.includes(k)] on an array of strings. *)
Definition includes (arr : list string) (k : string) : bool :=
  bool_decide (k ∈ arr).

(** ** Strings as sequences of UTF-16 code units *)

Abbreviation text := (list N).

(** ECMAScript [WhiteSpace]: TAB, VT, FF, SP, NBSP, ZWNBSP and the
    Unicode space separators (category Zs). *)
Definition isWhiteSpace (c : N) : bool :=
  ((c =? 0x0009) || (c =? 0x000B) || (c =? 0x000C) || (c =? 0x0020)
   || (c =? 0x00A0) || (c =? 0xFEFF) || (c =? 0x1680)
   || ((0x2000 <=? c) && (c <=? 0x200A))
   || (c =? 0x202F) || (c =? 0x205F) || (c =? 0x3000))%N.

(** ECMAScript [LineTerminator]: LF, CR, LS, PS. *)
Definition isLineTerminator (c : N) : bool :=
  ((c =? 0x000A) || (c =? 0x000D) || (c =? 0x2028) || (c =? 0x2029))%N.

(** The code units removed by [String.prototype.trim]. *)
Definition isTrimmed (c : N) : bool := isWhiteSpace c || isLineTerminator c.

Fixpoint trimStart (s : text) : text :=
  match s with
  | [] => []
  | c :: s' => if isTrimmed c then trimStart s' else s
  end.

Definition trimEnd (s : text) : text := reverse (trimStart (reverse s)).

(** [s.trim()]. *)
Definition trim (s : text) : text := trimEnd (trimStart s).

(** ASCII literals as code units, for readable examples. *)
Fixpoint utf16 (s : string) : text :=
  match s with
  | EmptyString => []
  | String a s' => Ascii.N_of_ascii a :: utf16 s'
  end.

(** Array indexing [arr[i]]: out of range reads [undefined] ([None]). *)
Definition index {A} (arr : list A) (i : nat) : option A := arr !! i.

(** The errors thrown by the language itself. *)
Inductive TypeError : Type :=
| CannotReadProperty (property : string).

(** Property read [v.p] where [v] may be [undefined]: reading a property
    of [undefined] throws a [TypeError]. *)
Definition prop {A B} (p : string) (field : A -> B) (v : option A)
  : TypeError + B :=
  match v with
  | Some a => inr (field a)
  | None => inl (CannotReadProperty p)
  end.

End JS.

(* ===================================================================== *)
(** * Effects: a store that external actions change, and a call trace     *)
(* ===================================================================== *)

Module Effect.

Section effect.
Context {World Event Err : Type}.

(** What a run can observe: the state of the outside world and the
    sequence of calls that left the program, oldest first. *)
Record state : Type := { world : World; trace : list Event }.

(** An awaited computation: it may change the state, and it either
    rejects (left) or resolves (right). *)
Definition M (A : Type) : Type := state -> state * (Err + A).

Definition ret {A} (a : A) : M A := fun s => (s, inr a).

Definition throw {A} (e : Err) : M A := fun s => (s, inl e).

(** [const x = await m; k x]: a rejection of [m] skips [k]. *)
Definition bind {A B} (m : M A) (k : A -> M B) : M B :=
  fun s =>
    match m s with
    | (s', inr a) => k a s'
    | (s', inl e) => (s', inl e)
    end.

(** A call that leaves the program: it is appended to the trace and the
    callee acts on the world. *)
Definition perform {A} (ev : Event) (f : World -> World * (Err + A)) : M A :=
  fun s =>
    let '(w, r) := f (world s) in
    ({| world := w; trace := trace s ++ [ev] |}, r).

(** How many events of a trace satisfy [p]. *)
Definition count (p : Event -> bool) (t : list Event) : nat :=
  length (filter (fun ev => p ev = true) t).

End effect.

Arguments state : clear implicits.
Arguments M : clear implicits.

End Effect.

Notation "'let_await' x ':=' m 'in' k" := (Effect.bind m (fun x => k))
  (at level 10, x name, m at level 100, k at level 200).

(* ===================================================================== *)
(** * generateText                                                        *)
(* ===================================================================== *)

Module GenerateText.

Section generateText.
Context {PROMPT RESPONSE USAGE OPTIONS : Type}.
Context {ResponsePromise ModelFunctionPromise : Type}.

(** [TextGenerationModelSettings]: the one setting [generateText] reads.
    [trimWhitespace?: boolean] is [None] when the caller left it out. *)
Record TextGenerationModelSettings : Type := {
  trimWhitespace : option bool
}.

(** [TextGenerationModel]: the members [generateText] uses.
    [extractUsage] is an optional method. *)
Record TextGenerationModel : Type := {
  settings : TextGenerationModelSettings;
  generateTextResponse : PROMPT -> option OPTIONS -> ResponsePromise;
  extractText : RESPONSE -> JS.text;
  extractUsage : option (RESPONSE -> USAGE)
}.

(** The argument object of [executeCall]. *)
Record ExecuteCallArguments : Type := {
  functionType : string;
  input : PROMPT;
  model : TextGenerationModel;
  options : option OPTIONS;
  generateResponse : option OPTIONS -> ResponsePromise;
  extractOutputValue : RESPONSE -> JS.text;
  extractUsageValue : RESPONSE -> option USAGE
}.

(** [executeCall] is defined outside the files at hand. *)
Variable executeCall : ExecuteCallArguments -> ModelFunctionPromise.

(** The object literal that [generateText] hands to [executeCall]. *)
Definition generateText_call (model : TextGenerationModel) (prompt : PROMPT)
    (options : option OPTIONS) : ExecuteCallArguments :=
  {| functionType := "text-generation";
     input := prompt;
     model := model;
     options := options;
     generateResponse := fun options => generateTextResponse model prompt options;
     extractOutputValue := fun result =>
       let shouldTrimWhitespace :=
         default true (trimWhitespace (settings model)) in
       if shouldTrimWhitespace
       then JS.trim (extractText model result)
       else extractText model result;
     extractUsageValue := fun result =>
       match extractUsage model with
       | Some f => Some (f result)
       | None => None
       end |}.

Definition generateText (model : TextGenerationModel) (prompt : PROMPT)
    (options : option OPTIONS) : ModelFunctionPromise :=
  executeCall (generateText_call model prompt options).

End generateText.

Arguments TextGenerationModel : clear implicits.
Arguments ExecuteCallArguments : clear implicits.

End GenerateText.

(* ===================================================================== *)
(** * useTool                                                             *)
(* ===================================================================== *)

Module UseTool.

Section useTool.
Context {MODEL PROMPT RESPONSE OPTIONS SCHEMA INPUT OUTPUT : Type}.
Context {World Exn ModelFunctionPromise : Type}.

(** [Tool]: its [execute] action is side-effecting and may reject. *)
Record Tool : Type := {
  name : string;
  description : string;
  inputSchema : SCHEMA;
  execute : INPUT -> World -> World * (Exn + OUTPUT)
}.

(** The schema definition that [generateJson] takes. *)
Record SchemaDefinition : Type := {
  sd_name : string;
  sd_description : string;
  sd_schema : SCHEMA
}.

(** What [asFullResponse()] resolves to; [useTool] reads [output]. *)
Record FullResponse : Type := {
  output : INPUT;
  response : RESPONSE
}.

(** The value [useTool] resolves to. *)
Record UseToolResult : Type := {
  tool : string;
  parameters : INPUT;
  result : OUTPUT
}.

(** What a caller of [useTool] can catch: an exception that passed through
    unchanged, or the error that [executeTool] raises for a failed
    action. *)
Inductive thrown : Type :=
| Raised (e : Exn)
| ToolExecutionError (toolName : string) (input : INPUT) (cause : Exn).

(** The calls that leave [useTool]. *)
Inductive event : Type :=
| GenerateJson (model : MODEL) (schemaDefinition : SchemaDefinition)
    (prompt : SchemaDefinition -> PROMPT) (options : option OPTIONS)
| ExecuteAction (toolName : string) (input : INPUT).

Definition is_ExecuteAction (ev : event) : bool :=
  match ev with ExecuteAction _ _ => true | GenerateJson _ _ _ _ => false end.

Definition is_GenerateJson (ev : event) : bool :=
  match ev with GenerateJson _ _ _ _ => true | ExecuteAction _ _ => false end.

(** [generateJson] and the [asFullResponse] projection of its promise are
    defined outside the files at hand: any behaviour is allowed for
    them. *)
Variable generateJson :
  MODEL -> SchemaDefinition -> (SchemaDefinition -> PROMPT) ->
  option OPTIONS -> ModelFunctionPromise.
Variable asFullResponse :
  ModelFunctionPromise -> World -> World * (Exn + FullResponse).

Definition raise_unchanged {A} (r : World * (Exn + A))
  : World * (thrown + A) :=
  match r with
  | (w, inl e) => (w, inl (Raised e))
  | (w, inr a) => (w, inr a)
  end.

(** [await generateJson(model, def, prompt, options).asFullResponse()]. *)
Definition await_generateJson (model : MODEL) (def : SchemaDefinition)
    (prompt : SchemaDefinition -> PROMPT) (options : option OPTIONS)
  : Effect.M World event thrown FullResponse :=
  Effect.perform (GenerateJson model def prompt options)
    (fun w => raise_unchanged
                (asFullResponse (generateJson model def prompt options) w)).

(** Modelled from the spec: [executeTool], which [useTool] imports from
    [./executeTool.js]; that file is not among the files at hand.
    Section 4.7: the tool's action is invoked
    with the validated parameters; a failure during action invocation is a
    distinct tool-execution error. *)
Definition executeTool (tool : Tool) (input : INPUT)
    (options : option OPTIONS) : Effect.M World event thrown OUTPUT :=
  Effect.perform (ExecuteAction (name tool) input)
    (fun w =>
       match execute tool input w with
       | (w', inl e) => (w', inl (ToolExecutionError (name tool) input e))
       | (w', inr out) => (w', inr out)
       end).

Definition useTool (model : MODEL) (tool : Tool) (prompt : Tool -> PROMPT)
    (options : option OPTIONS) : Effect.M World event thrown UseToolResult :=
  let_await full :=
    await_generateJson model
      {| sd_name := name tool;
         sd_description := description tool;
         sd_schema := inputSchema tool |}
      (fun _ => prompt tool)
      options in
  let value := output full in
  let_await result := executeTool tool value options in
  Effect.ret {| tool := name tool; parameters := value; result := result |}.

End useTool.

Arguments Tool : clear implicits.
Arguments SchemaDefinition : clear implicits.
Arguments FullResponse : clear implicits.
Arguments UseToolResult : clear implicits.
Arguments thrown : clear implicits.
Arguments event : clear implicits.

End UseTool.

(* ===================================================================== *)
(** * The object store                                                    *)
(* ===================================================================== *)

Module Store.

Abbreviation heap Host := (gmap JS.loc (gmap string (JS.value Host))).

Section store.
Context {Host : Type}.

(** Creation of an object ([{}], an object literal, [new C(...)]): it
    gets an identity that no live object has. *)
Definition alloc (o : gmap string (JS.value Host))
    (h : gmap JS.loc (gmap string (JS.value Host)))
  : JS.loc * gmap JS.loc (gmap string (JS.value Host)) :=
  let l := fresh (dom h) in (l, <[l := o]> h).

(** The properties of the object a value refers to. *)
Definition deref (h : gmap JS.loc (gmap string (JS.value Host)))
    (v : JS.value Host) : option (gmap string (JS.value Host)) :=
  match v with
  | JS.VRef l => h !! l
  | _ => None
  end.

(** One source of [Object.assign(target, ...)]: the own properties of the
    source object, as they are now, are written into the target object in
    place.  The sources here are settings objects or [undefined]; a source
    that is not an object of the store contributes nothing. *)
Definition assign1 (target : JS.loc)
    (h : gmap JS.loc (gmap string (JS.value Host)))
    (source : JS.value Host) : gmap JS.loc (gmap string (JS.value Host)) :=
  match h !! target with
  | Some t => <[target := JS.assign1 t (deref h source)]> h
  | None => h
  end.

(** [Object.assign(target, ...sources)]: mutates [target], which is also
    the value of the call. *)
Definition Object_assign (target : JS.loc) (sources : list (JS.value Host))
    (h : gmap JS.loc (gmap string (JS.value Host)))
  : gmap JS.loc (gmap string (JS.value Host)) :=
  foldl (assign1 target) h sources.

End store.

End Store.

(* ===================================================================== *)
(** * Run context                                                         *)
(* ===================================================================== *)

Module Run.

(** [RunContext]: the two members the providers read. *)
Record Run {Host : Type} : Type := {
  userId : option string;
  abortSignal : JS.value Host
}.
Arguments Run : clear implicits.

(** [run?.userId]. *)
Definition userId_of {Host} (run : option (Run Host)) : JS.value Host :=
  match run with
  | Some r => JS.of_opt_string (userId r)
  | None => JS.VUndefined
  end.

(** [run?.abortSignal]. *)
Definition abortSignal_of {Host} (run : option (Run Host)) : JS.value Host :=
  match run with
  | Some r => abortSignal r
  | None => JS.VUndefined
  end.

End Run.

(* ===================================================================== *)
(** * OpenAITextGenerationModel                                           *)
(* ===================================================================== *)

Module OpenAITextGenerationModel.

(** The table of known models, an object keyed by model name. *)
Definition OPENAI_TEXT_GENERATION_MODELS : gmap string Z :=
  list_to_map
    [ ("text-davinci-003", 4096); ("text-davinci-002", 4096);
      ("code-davinci-002", 8000); ("text-curie-001", 2048);
      ("text-babbage-001", 2048); ("text-ada-001", 2048);
      ("davinci", 2048); ("curie", 2048); ("babbage", 2048);
      ("ada", 2048) ].

(** The keys of [OpenAITextGenerationModelSettings]. *)
Definition settings_keys : list string :=
  [ "isUserIdForwardingEnabled"; "suffix"; "maxTokens"; "temperature";
    "topP"; "n"; "logprobs"; "echo"; "stop"; "presencePenalty";
    "frequencyPenalty"; "bestOf" ].

(** [OpenAITextGenerationResponse], as far as [extractOutput] reads it. *)
Record Choice : Type := { text : string }.
Record OpenAITextGenerationResponse : Type := { choices : list Choice }.

Section model.
Context {Host Completion : Type}.

(** Defined outside the files at hand. *)
Variable getTiktokenTokenizerForModel : JS.value Host -> JS.value Host.
Variable generateOpenAITextCompletion : gmap string (JS.value Host) -> Completion.

(** A settings object that has the declared type: no key outside it. *)
Definition settings_well_typed (settings : gmap string (JS.value Host)) : Prop :=
  map_Forall (fun k _ => k ∈ settings_keys) settings.

(** The members of an instance that the methods read, with the settings
    object the instance refers to read out of the store. *)
Record instance : Type := {
  baseUrl : JS.value Host;
  apiKey : JS.value Host;
  model : JS.value Host;
  settings : gmap string (JS.value Host)
}.

Definition instance_at (h : gmap JS.loc (gmap string (JS.value Host)))
    (this : JS.loc) : option instance :=
  match h !! this with
  | Some o =>
      match Store.deref h (JS.get o "settings") with
      | Some s =>
          Some {| baseUrl := JS.get o "baseUrl";
                  apiKey := JS.get o "apiKey";
                  model := JS.get o "model";
                  settings := s |}
      | None => None
      end
  | None => None
  end.

(** The constructor.  [settings = {}] creates an empty settings object
    when none is passed; otherwise the instance refers to the very object
    it was given.  [OPENAI_TEXT_GENERATION_MODELS[model].maxTokens] throws
    when the table has no such model. *)
Definition new (baseUrl apiKey model settings : JS.value Host)
    (h : gmap JS.loc (gmap string (JS.value Host)))
  : JS.TypeError + (JS.loc * gmap JS.loc (gmap string (JS.value Host))) :=
  let '(settings, h) :=
    match settings with
    | JS.VUndefined => let '(l, h') := Store.alloc ∅ h in (JS.VRef l, h')
    | _ => (settings, h)
    end in
  let tokenizer := getTiktokenTokenizerForModel model in
  match JS.prop "maxTokens" id
          (OPENAI_TEXT_GENERATION_MODELS !! JS.toString model) with
  | inl e => inl e
  | inr maxTokens =>
      inr (Store.alloc
             (JS.literal
                [ ("provider", JS.VStr "openai");
                  ("baseUrl", baseUrl);
                  ("apiKey", apiKey);
                  ("model", model);
                  ("settings", settings);
                  ("tokenizer", tokenizer);
                  ("maxTokens", JS.VNum maxTokens) ])
             h)
  end.

(** The argument object of [generateOpenAITextCompletion] in [generate]:
    six properties, then the spread of the settings. *)
Definition generate_arguments (this : instance) (input : string)
    (context : option (Run.Run Host)) : gmap string (JS.value Host) :=
  JS.assign1
    (JS.literal
       [ ("baseUrl", baseUrl this);
         ("abortSignal", Run.abortSignal_of context);
         ("apiKey", apiKey this);
         ("prompt", JS.VStr input);
         ("model", model this);
         ("user",
           if JS.truthy (JS.get (settings this) "isUserIdForwardingEnabled")
           then Run.userId_of context
           else JS.VUndefined) ])
    (Some (settings this)).

Definition generate (this : instance) (input : string)
    (context : option (Run.Run Host)) : Completion :=
  generateOpenAITextCompletion (generate_arguments this input context).

(** [rawOutput.choices[0]!.text]; the [!] is erased at run time. *)
Definition extractOutput (rawOutput : OpenAITextGenerationResponse)
  : JS.TypeError + string :=
  JS.prop "text" text (JS.index (choices rawOutput) 0).

Definition withSettings (this : JS.loc) (additionalSettings : JS.value Host)
    (h : gmap JS.loc (gmap string (JS.value Host)))
  : JS.TypeError + (JS.loc * gmap JS.loc (gmap string (JS.value Host))) :=
  let o := default ∅ (h !! this) in
  let '(target, h1) := Store.alloc ∅ h in
  let h2 :=
    Store.Object_assign target [JS.get o "settings"; additionalSettings] h1 in
  new (JS.get o "baseUrl") (JS.get o "apiKey") (JS.get o "model")
      (JS.VRef target) h2.

End model.

Arguments instance : clear implicits.

End OpenAITextGenerationModel.

(* ===================================================================== *)
(** * OpenAIImageGenerationModel                                          *)
(* ===================================================================== *)

Module OpenAIImageGenerationModel.

(** [OpenAIImageGenerationBase64JsonResponse]. *)
Record Base64Image : Type := { b64_json : string }.
Record OpenAIImageGenerationBase64JsonResponse : Type := {
  created : Z;
  data : list Base64Image
}.

(** The keys of [OpenAIImageGenerationSettings] (image settings, call
    settings, the shared OpenAI model settings and the forwarding flag):
    there is no [user] among them. *)
Definition settings_keys : list string :=
  [ "n"; "size"; "baseUrl"; "apiKey"; "retry"; "throttle"; "observers";
    "isUserIdForwardingEnabled" ].

Definition missing_api_key_message : string :=
  "OpenAI API key is missing. Pass it as an argument to the constructor or set it as an environment variable named OPENAI_API_KEY.".

Section model.
Context {Handler Opaque RESULT World Exn : Type}.

(** [OpenAIImageGenerationResponseFormatType]. *)
Record ResponseFormatType : Type := {
  type : string;
  handler : Handler
}.

(** The host objects that travel through the call settings: response
    formats, whose fields are read, and objects that are only passed on
    (functions, abort signals). *)
Inductive host : Type :=
| HResponseFormat (rf : ResponseFormatType)
| HOpaque (o : Opaque).

(** The handlers built at module level. *)
Variable failedOpenAICallResponseHandler : Handler.
Variable base64JsonHandler : Handler.
Variable urlHandler : Handler.

(** [OpenAIImageGenerationResponseFormat]. *)
Definition ResponseFormat_url : ResponseFormatType :=
  {| type := "url"; handler := urlHandler |}.
Definition ResponseFormat_base64Json : ResponseFormatType :=
  {| type := "b64_json"; handler := base64JsonHandler |}.

(** The options of [callAPI]: a response format and the
    [ModelFunctionOptions] members. *)
Record CallOptions : Type := {
  responseFormat : ResponseFormatType;
  functionId : option string;
  opt_settings : option (gmap string (JS.value host));
  run : option (Run.Run host)
}.

(** [ModelFunctionOptions], the options of [generateImageResponse]. *)
Record ModelFunctionOptions : Type := {
  mfo_functionId : option string;
  mfo_settings : option (gmap string (JS.value host));
  mfo_run : option (Run.Run host)
}.

(** The argument object of [postJsonToApi]. *)
Record PostJsonArguments : Type := {
  url : string;
  headers_Authorization : string;
  body : gmap string (JS.value host);
  failedResponseHandler : Handler;
  successfulResponseHandler : option Handler;
  post_abortSignal : JS.value host
}.

(** What [callAPI] can reject with. *)
Inductive thrown : Type :=
| Error (message : string)
| TypeError (e : JS.TypeError)
| Rejected (e : Exn).

(** The calls that leave the model: requests to the provider. *)
Inductive event : Type :=
| PostJsonToApi (arguments : PostJsonArguments).

(** Defined outside the file at hand: the HTTP call, and the wrapper that
    retries and throttles a call.  Any behaviour is allowed for them. *)
Variable postJsonToApi : PostJsonArguments -> World -> World * (thrown + RESULT).
Variable callWithRetryAndThrottle :
  JS.value host -> JS.value host ->
  Effect.M World event thrown RESULT -> Effect.M World event thrown RESULT.

(** A settings object that has the declared type: no key outside it. *)
Definition settings_well_typed (settings : gmap string (JS.value host)) : Prop :=
  map_Forall (fun k _ => k ∈ settings_keys) settings.

(** The getter [apiKey]; [env] is [process.env]. *)
Definition apiKey (settings : gmap string (JS.value host))
    (env : gmap string string) : thrown + JS.value host :=
  let apiKey :=
    JS.coalesce (JS.get settings "apiKey")
                (JS.of_opt_string (env !! "OPENAI_API_KEY")) in
  if JS.nullish apiKey
  then inl (Error missing_api_key_message)
  else inr apiKey.

(** The [callSettings] object of [callAPI], given the value the [apiKey]
    getter returned. *)
Definition callSettings (apiKey : JS.value host)
    (settings : gmap string (JS.value host)) (prompt : string)
    (options : option CallOptions) : gmap string (JS.value host) :=
  let run := from_option run None options in
  let settings' := from_option opt_settings None options in
  let responseFormat :=
    match options with
    | Some o => JS.VHost (HResponseFormat (responseFormat o))
    | None => JS.VUndefined
    end in
  JS.Object_assign
    (JS.literal
       [ ("apiKey", apiKey);
         ("user",
           if JS.truthy (JS.get settings "isUserIdForwardingEnabled")
           then Run.userId_of run
           else JS.VUndefined) ])
    [ Some settings;
      settings';
      Some (JS.literal
              [ ("abortSignal", Run.abortSignal_of run);
                ("prompt", JS.VStr prompt);
                ("responseFormat", responseFormat) ]) ].

(** [responseFormat.type] and [responseFormat?.handler]. *)
Definition responseFormat_members (responseFormat : JS.value host)
  : JS.TypeError + (JS.value host * option Handler) :=
  match responseFormat with
  | JS.VUndefined | JS.VNull => inl (JS.CannotReadProperty "type")
  | JS.VHost (HResponseFormat rf) => inr (JS.VStr (type rf), Some (handler rf))
  | _ => inr (JS.VUndefined, None)
  end.

(** The request that [callOpenAIImageGenerationAPI] builds from the call
    settings it destructures. *)
Definition request (callSettings : gmap string (JS.value host))
  : JS.TypeError + PostJsonArguments :=
  let baseUrl :=
    JS.with_default (JS.get callSettings "baseUrl")
                    (JS.VStr "https://api.openai.com/v1") in
  let abortSignal := JS.get callSettings "abortSignal" in
  let apiKey := JS.get callSettings "apiKey" in
  let prompt := JS.get callSettings "prompt" in
  let n := JS.get callSettings "n" in
  let size := JS.get callSettings "size" in
  let responseFormat := JS.get callSettings "responseFormat" in
  let user := JS.get callSettings "user" in
  match responseFormat_members responseFormat with
  | inl e => inl e
  | inr (response_format, handler) =>
      inr {| url := JS.toString baseUrl ++ "/images/generations";
             headers_Authorization := "Bearer " ++ JS.toString apiKey;
             body :=
               JS.literal
                 [ ("prompt", prompt);
                   ("n", n);
                   ("size", size);
                   ("response_format", response_format);
                   ("user", user) ];
             failedResponseHandler := failedOpenAICallResponseHandler;
             successfulResponseHandler := handler;
             post_abortSignal := abortSignal |}
  end.

Definition callOpenAIImageGenerationAPI
    (callSettings : gmap string (JS.value host))
  : Effect.M World event thrown RESULT :=
  match request callSettings with
  | inl e => Effect.throw (TypeError e)
  | inr arguments =>
      Effect.perform (PostJsonToApi arguments) (postJsonToApi arguments)
  end.

(** [callAPI], on the settings object of [this]. *)
Definition callAPI (settings : gmap string (JS.value host))
    (env : gmap string string) (prompt : string)
    (options : option CallOptions) : Effect.M World event thrown RESULT :=
  match apiKey settings env with
  | inl e => Effect.throw e
  | inr key =>
      let callSettings := callSettings key settings prompt options in
      callWithRetryAndThrottle
        (JS.get callSettings "retry")
        (JS.get callSettings "throttle")
        (callOpenAIImageGenerationAPI callSettings)
  end.

Definition eventSettingProperties : list string := ["baseUrl"; "n"; "size"].

(** The getter [settingsForEvent]. *)
Definition settingsForEvent (settings : gmap string (JS.value host))
  : gmap string (JS.value host) :=
  JS.Object_fromEntries
    (List.filter
       (fun '(key, _) => JS.includes eventSettingProperties key)
       (JS.Object_entries settings)).

Definition generateImageResponse (settings : gmap string (JS.value host))
    (env : gmap string string) (prompt : string)
    (options : option ModelFunctionOptions)
  : Effect.M World event thrown RESULT :=
  callAPI settings env prompt
    (Some {| responseFormat := ResponseFormat_base64Json;
             functionId := from_option mfo_functionId None options;
             opt_settings := from_option mfo_settings None options;
             run := from_option mfo_run None options |}).

(** [response.data[0].b64_json]. *)
Definition extractBase64Image
    (response : OpenAIImageGenerationBase64JsonResponse)
  : JS.TypeError + string :=
  JS.prop "b64_json" b64_json (JS.index (data response) 0).

(** Modelled from the spec: the constructor of [AbstractModel], the base
    class, which is not among the files at hand.  Section 3: a model
    instance owns its settings; the instance keeps the settings object it
    is constructed with. *)
Definition new (settings : JS.value host)
    (h : gmap JS.loc (gmap string (JS.value host)))
  : JS.loc * gmap JS.loc (gmap string (JS.value host)) :=
  Store.alloc
    (JS.literal
       [ ("settings", settings);
         ("provider", JS.VStr "openai");
         ("modelName", JS.VNull) ])
    h.

(** The settings object of the instance at [this]. *)
Definition settings_at (h : gmap JS.loc (gmap string (JS.value host)))
    (this : JS.loc) : option (gmap string (JS.value host)) :=
  match h !! this with
  | Some o => Store.deref h (JS.get o "settings")
  | None => None
  end.

Definition withSettings (this : JS.loc) (additionalSettings : JS.value host)
    (h : gmap JS.loc (gmap string (JS.value host)))
  : JS.loc * gmap JS.loc (gmap string (JS.value host)) :=
  let o := default ∅ (h !! this) in
  let '(target, h1) := Store.alloc ∅ h in
  let h2 :=
    Store.Object_assign target [JS.get o "settings"; additionalSettings] h1 in
  new (JS.VRef target) h2.

End model.

Arguments ResponseFormatType : clear implicits.
Arguments host : clear implicits.
Arguments CallOptions : clear implicits.
Arguments ModelFunctionOptions : clear implicits.
Arguments PostJsonArguments : clear implicits.
Arguments thrown : clear implicits.
Arguments event : clear implicits.

End OpenAIImageGenerationModel.

(* ===================================================================== *)
(** * Retry with exponential backoff                                      *)
(* ===================================================================== *)

Module Retry.

(** The options of [retryWithExponentialBackoff]. *)
Record ExponentialBackoff : Type := {
  maxTries : nat;
  initialDelay : Q;
  backoffFactor : Q
}.

Inductive decision : Type :=
| RetryAfter (delay : Q)
| Stop.

Section executor.
Context {V E : Type}.

(** The attempt outcomes of section 3. *)
Inductive outcome : Type :=
| Success (v : V)
| RetryableFailure (e : E)
| FatalFailure (e : E)
| Cancelled.

(** What a run of the executor does, in order. *)
Inductive event : Type :=
| Attempt (attemptNumber : nat)
| Wait (delay : Q).

(** Modelled from the spec: the delay of the default retry policy
    ([retryWithExponentialBackoff] is only called, never defined, in the
    files at hand).  Section 4.2:
    delay = initialDelay × backoffFactor^(attemptNumber-1). *)
Definition delay (p : ExponentialBackoff) (attemptNumber : nat) : Q :=
  (initialDelay p * backoffFactor p ^ (Z.of_nat (attemptNumber - 1)))%Q.

(** Modelled from the spec: the default policy's [shouldRetry], absent
    from the files at hand.  Section 4.2: retries are capped at [maxTries]
    attempts, the first included; the policy is a function of the attempt
    number and the error alone.  [attemptNumber] is the number of the
    attempt the decision is about, the one a retry would start: sections
    4.2 and 8 then name the same delay for attempt k. *)
Definition shouldRetry (p : ExponentialBackoff) (attemptNumber : nat)
    (error : E) : decision :=
  if (attemptNumber <=? maxTries p)%nat
  then RetryAfter (delay p attemptNumber)
  else Stop.

(** Modelled from the spec: the outer loop of the Call Executor, absent
    from the files at hand.  Section 4.4: attempts are repeated per the
    policy's decisions until success, fatal failure, cancellation or
    exhausted retries; section 7: the policy only sees retryable
    failures; section 4.2: when the policy stops, the last observed error
    is surfaced.  [attempt k] is the outcome of the k-th attempt. *)
Fixpoint run (fuel : nat) (policy : nat -> E -> decision)
    (attempt : nat -> outcome) (attemptNumber : nat)
  : option (list event * outcome) :=
  match fuel with
  | O => None
  | S fuel' =>
      match attempt attemptNumber with
      | RetryableFailure e =>
          match policy (S attemptNumber) e with
          | RetryAfter d =>
              match run fuel' policy attempt (S attemptNumber) with
              | Some (t, r) => Some (Attempt attemptNumber :: Wait d :: t, r)
              | None => None
              end
          | Stop => Some ([Attempt attemptNumber], RetryableFailure e)
          end
      | o => Some ([Attempt attemptNumber], o)
      end
  end.

(** The attempts of a trace, and the waits of a trace. *)
Definition attempts (t : list event) : list nat :=
  omap (fun ev => match ev with Attempt n => Some n | Wait _ => None end) t.

Definition waits (t : list event) : list Q :=
  omap (fun ev => match ev with Wait d => Some d | Attempt _ => None end) t.

End executor.

Arguments outcome : clear implicits.

End Retry.

(* ===================================================================== *)
(** * The cost of an image generation call                                *)
(* ===================================================================== *)

Module OpenAIImageGenerationCost.






End OpenAIImageGenerationCost.

(* ===================================================================== *)
(** * TikTokenTokenizer                                                   *)
(* ===================================================================== *)

Module TikTokenTokenizer.

(** The case labels of [getEncodingNameForModel], branch by branch. *)
Definition p50k_models : list string :=
  [ "code-davinci-002"; "text-davinci-002"; "text-davinci-003" ].

Definition r50k_models : list string :=
  [ "babbage-002"; "davinci-002"; "ada"; "babbage"; "curie"; "davinci";
    "text-ada-001"; "text-babbage-001"; "text-curie-001" ].

Definition cl100k_models : list string :=
  [ "gpt-3.5-turbo"; "gpt-3.5-turbo-0301"; "gpt-3.5-turbo-0613";
    "gpt-3.5-turbo-16k"; "gpt-3.5-turbo-16k-0613"; "gpt-4"; "gpt-4-0314";
    "gpt-4-0613"; "gpt-4-32k"; "gpt-4-32k-0314"; "gpt-4-32k-0613";
    "text-embedding-ada-002" ].

(** The [Tiktoken] object of js-tiktoken, as far as the tokenizer uses
    it.  Tokens are numbers that are only passed around. *)
Record Tiktoken : Type := {
  encode : string -> list Z;
  decode : list Z -> string
}.

(** The constructor's options: a model or an encoding. *)
Inductive options : Type :=
| ForModel (model : string)
| ForEncoding (encoding : string).


Section tokenizer.
Context {Exn : Type}.

(** What the constructor can throw: whatever [never] throws, or the
    error of the [default] branch. *)
Inductive thrown : Type :=
| Thrown (e : Exn)
| Error (message : string).

(** Defined outside the file at hand: the exhaustiveness helper [never]
    ([Some e] when it throws [e]) and js-tiktoken's [getEncoding]. *)
Variable never : string -> option Exn.
Variable getEncoding : string -> Tiktoken.

(** The [switch] of [getEncodingNameForModel]: the first branch with a
    matching label is taken; the [default] branch always throws. *)
Definition getEncodingNameForModel (model : string) : thrown + string :=
  if bool_decide (model ∈ p50k_models) then inr "p50k_base"
  else if bool_decide (model ∈ r50k_models) then inr "r50k_base"
  else if bool_decide (model ∈ cl100k_models) then inr "cl100k_base"
  else
    match never model with
    | Some e => inl (Thrown e)
    | None => inl (Error ("Unknown model: " +:+ model))
    end.

(** The constructor: the [tiktoken] member of the new tokenizer. *)
Definition new (opts : options) : thrown + Tiktoken :=
  match opts with
  | ForModel model =>
      match getEncodingNameForModel model with
      | inl e => inl e
      | inr name => inr (getEncoding name)
      end
  | ForEncoding encoding => inr (getEncoding encoding)
  end.

End tokenizer.

Arguments thrown : clear implicits.




End TikTokenTokenizer.

(* ===================================================================== *)
(** * Sample inputs                                                       *)
(* ===================================================================== *)

Module Samples.

(** A model whose raw response is the text itself. *)
Definition echo_model (trimWhitespace : option bool)
  : GenerateText.TextGenerationModel string (list N) unit unit unit :=
  {| GenerateText.settings :=
       {| GenerateText.trimWhitespace := trimWhitespace |};
     GenerateText.generateTextResponse := fun _ _ => tt;
     GenerateText.extractText := fun r => r;
     GenerateText.extractUsage := None |}.

(** A weather tool: its action counts its invocations in the world and
    answers with a report for the city. *)
Definition weather_tool : UseTool.Tool unit string string nat string :=
  {| UseTool.name := "getWeather";
     UseTool.description := "Get the weather in a city";
     UseTool.inputSchema := tt;
     UseTool.execute := fun city calls => (S calls, inr ("sunny in " +:+ city)) |}.

(** A generation phase that produces the parameters ["paris"]. *)
Definition generation_ok (_ : unit) (w : nat)
  : nat * (string + UseTool.FullResponse unit string) :=
  (w, inr {| UseTool.output := "paris"; UseTool.response := tt |}).

(** A generation phase that rejects. *)
Definition generation_fails (_ : unit) (w : nat)
  : nat * (string + UseTool.FullResponse unit string) :=
  (w, inl "schema mismatch").

Definition sample_generateJson (_ : unit)
    (_ : UseTool.SchemaDefinition unit)
    (_ : UseTool.SchemaDefinition unit -> string) (_ : option unit) : unit :=
  tt.

Definition sample_start
  : Effect.state nat (UseTool.event unit string unit unit string) :=
  {| Effect.world := 0%nat; Effect.trace := [] |}.

(** A store with a text model (at 3) whose settings object (at 1) sets a
    temperature, and a further settings object (at 2), as in
    [model.withSettings({ maxTokens: 500 })]. *)
Definition text_store : gmap JS.loc (gmap string (JS.value unit)) :=
  {[ 1%positive := {[ "temperature" := JS.VNum 1 ]};
     2%positive := {[ "maxTokens" := JS.VNum 500 ]};
     3%positive :=
       JS.literal
         [ ("provider", JS.VStr "openai");
           ("baseUrl", JS.VUndefined);
           ("apiKey", JS.VStr "sk-test");
           ("model", JS.VStr "text-davinci-003");
           ("settings", JS.VRef 1);
           ("tokenizer", JS.VHost tt);
           ("maxTokens", JS.VNum 4096) ] ]}.

Definition sample_tokenizer (_ : JS.value unit) : JS.value unit := JS.VHost tt.

(** A store with an image model (at 3) whose settings object (at 1) sets a
    size, and a further settings object (at 2). *)
Definition image_store
  : gmap JS.loc
      (gmap string (JS.value (OpenAIImageGenerationModel.host unit unit))) :=
  {[ 1%positive := {[ "size" := JS.VStr "512x512" ]};
     2%positive := {[ "n" := JS.VNum 2 ]};
     3%positive :=
       JS.literal
         [ ("settings", JS.VRef 1);
           ("provider", JS.VStr "openai");
           ("modelName", JS.VNull) ] ]}.

(** Image model settings that opt in to user-id forwarding, per-call
    settings that override the number of images, and a run context. *)
Definition image_settings
  : gmap string (JS.value (OpenAIImageGenerationModel.host unit unit)) :=
  {[ "apiKey" := JS.VStr "sk-model";
     "n" := JS.VNum 1;
     "size" := JS.VStr "512x512";
     "isUserIdForwardingEnabled" := JS.VBool true ]}.

Definition per_call_settings
  : gmap string (JS.value (OpenAIImageGenerationModel.host unit unit)) :=
  {[ "n" := JS.VNum 4 ]}.

Definition run_of (userId : string)
  : Run.Run (OpenAIImageGenerationModel.host unit unit) :=
  {| Run.userId := Some userId;
     Run.abortSignal := JS.VHost (OpenAIImageGenerationModel.HOpaque tt) |}.

Definition call_options
    (settings : option (gmap string
                          (JS.value (OpenAIImageGenerationModel.host unit unit))))
    (userId : string)
  : OpenAIImageGenerationModel.CallOptions unit unit :=
  {| OpenAIImageGenerationModel.responseFormat :=
       OpenAIImageGenerationModel.ResponseFormat_base64Json tt;
     OpenAIImageGenerationModel.functionId := None;
     OpenAIImageGenerationModel.opt_settings := settings;
     OpenAIImageGenerationModel.run := Some (run_of userId) |}.

(** Collaborators of [callAPI] for the examples: a provider that answers
    every request, and a wrapper that makes the call once. *)
Definition sample_postJsonToApi
    (_ : OpenAIImageGenerationModel.PostJsonArguments unit unit) (w : nat)
  : nat * (OpenAIImageGenerationModel.thrown unit + unit) :=
  (S w, inr tt).

Definition call_once
    (_ _ : JS.value (OpenAIImageGenerationModel.host unit unit))
    (call : Effect.M nat (OpenAIImageGenerationModel.event unit unit)
              (OpenAIImageGenerationModel.thrown unit) unit)
  : Effect.M nat (OpenAIImageGenerationModel.event unit unit)
      (OpenAIImageGenerationModel.thrown unit) unit :=
  call.

(** Image model settings without user-id forwarding. *)
Definition image_settings_private
  : gmap string (JS.value (OpenAIImageGenerationModel.host unit unit)) :=
  {[ "apiKey" := JS.VStr "sk-model"; "size" := JS.VStr "512x512" ]}.

(** Per-call settings that name a user of their own. *)
Definition per_call_user
  : gmap string (JS.value (OpenAIImageGenerationModel.host unit unit)) :=
  {[ "user" := JS.VStr "bob" ]}.

(** A text model instance with user-id forwarding enabled. *)
Definition text_instance : OpenAITextGenerationModel.instance unit :=
  {| OpenAITextGenerationModel.baseUrl := JS.VUndefined;
     OpenAITextGenerationModel.apiKey := JS.VStr "sk-test";
     OpenAITextGenerationModel.model := JS.VStr "text-davinci-003";
     OpenAITextGenerationModel.settings :=
       {[ "isUserIdForwardingEnabled" := JS.VBool true;
          "temperature" := JS.VNum 1 ]} |}.

Definition text_run (userId : string) : Run.Run unit :=
  {| Run.userId := Some userId; Run.abortSignal := JS.VUndefined |}.

(** The policy of the documentation example: eight tries, one second,
    doubling. *)
Definition docs_policy : Retry.ExponentialBackoff :=
  {| Retry.maxTries := 8; Retry.initialDelay := 1000; Retry.backoffFactor := 2 |}.

(** A provider that fails every attempt with a retryable error that
    carries the attempt's number. *)
Definition always_failing (attemptNumber : nat) : Retry.outcome unit nat :=
  Retry.RetryableFailure attemptNumber.

(** A tokenizer for the examples: one token per character. *)
Definition char_tiktoken : TikTokenTokenizer.Tiktoken :=
  {| TikTokenTokenizer.encode :=
       fun text => map (fun a => Z.of_N (Ascii.N_of_ascii a))
                       (String.list_ascii_of_string text);
     TikTokenTokenizer.decode :=
       fun tokens =>
         String.string_of_list_ascii
           (map (fun t => Ascii.ascii_of_N (Z.to_N t)) tokens) |}.

(** Image model settings whose [apiKey] entry is there but undefined, as
    after [new OpenAIImageGenerationModel({ apiKey: undefined })]. *)
Definition image_settings_undefined_key
  : gmap string (JS.value (OpenAIImageGenerationModel.host unit unit)) :=
  {[ "apiKey" := JS.VUndefined; "size" := JS.VStr "256x256" ]}.

Definition image_start
  : Effect.state nat (OpenAIImageGenerationModel.event unit unit) :=
  {| Effect.world := 0%nat; Effect.trace := [] |}.

End Samples.

(* ===================================================================== *)
(** * Properties of the JavaScript primitives                             *)
(* ===================================================================== *)

Section js_facts.
Context {Host : Type}.
Implicit Types (o t s : gmap string (JS.value Host)).
Implicit Types (k : string) (v : JS.value Host).

Lemma get_lookup o k v : o !! k = Some v → JS.get o k = v.
Proof. unfold JS.get. by intros ->. Qed.

Lemma get_absent o k : o !! k = None → JS.get o k = JS.VUndefined.
Proof. unfold JS.get. by intros ->. Qed.

(** A later source wins on the keys it has; the target keeps the rest. *)
Lemma lookup_assign1 t (src : option (gmap string (JS.value Host))) k :
  JS.assign1 t src !! k =
    match src with
    | Some s => match s !! k with Some v => Some v | None => t !! k end
    | None => t !! k
    end.
Proof.
  destruct src as [s|]; simpl; [|done].
  rewrite lookup_union. destruct (s !! k), (t !! k); done.
Qed.

Lemma lookup_literal_snoc (l : list (string * JS.value Host)) k0 v0 k :
  JS.literal (l ++ [(k0, v0)]) !! k =
    if decide (k0 = k) then Some v0 else JS.literal l !! k.
Proof.
  unfold JS.literal. rewrite foldl_app. simpl.
  by rewrite lookup_insert.
Qed.

Lemma lookup_literal_nil k : JS.literal ([] : list (string * JS.value Host)) !! k = None.
Proof. unfold JS.literal. simpl. apply lookup_empty. Qed.

(** An object built from entries with pairwise distinct keys has exactly
    those entries. *)
Lemma lookup_literal_NoDup (l : list (string * JS.value Host)) k v :
  NoDup l.*1 → JS.literal l !! k = Some v ↔ (k, v) ∈ l.
Proof.
  induction l as [|[k0 v0] l IH] using rev_ind; intros Hnd.
  - rewrite lookup_literal_nil. split; [done | by intros ?%elem_of_nil].
  - rewrite fmap_app in Hnd. simpl in Hnd.
    apply NoDup_app in Hnd as (Hl & Hdisj & _).
    rewrite lookup_literal_snoc, elem_of_app, list_elem_of_singleton.
    case_decide as Hk.
    + subst k0. split.
      * intros [= ->]. by right.
      * intros [Hin | [= ->]]; [|done].
        exfalso. apply (Hdisj k); [|by constructor].
        apply list_elem_of_fmap. by exists (k, v).
    + rewrite (IH Hl). split; [by left|].
      intros [? | [= -> ->]]; done.
Qed.

End js_facts.

(** ** [trim] *)

Section trim_facts.
Implicit Types (s : list N) (c : N).

Lemma trimStart_split s :
  ∃ pre, s = pre ++ JS.trimStart s ∧
         Forall (fun c => JS.isTrimmed c = true) pre.
Proof.
  induction s as [|c s (pre & Heq & Hpre)]; simpl.
  - by exists [].
  - destruct (JS.isTrimmed c) eqn:Hc.
    + exists (c :: pre). split; [by rewrite Heq at 1 | by constructor].
    + by exists [].
Qed.

Lemma trimStart_head s c :
  head (JS.trimStart s) = Some c → JS.isTrimmed c = false.
Proof.
  induction s as [|c' s IH]; simpl; [done|].
  destruct (JS.isTrimmed c') eqn:Hc; [done|].
  simpl. by intros [= <-].
Qed.

Lemma trimStart_app_keep s1 c s2 :
  JS.isTrimmed c = false →
  ∃ r, JS.trimStart (s1 ++ c :: s2) = r ++ c :: s2.
Proof.
  intros Hc. induction s1 as [|c' s1 [r Hr]]; simpl.
  - rewrite Hc. by exists [].
  - destruct (JS.isTrimmed c'); [by exists r | by exists (c' :: s1)].
Qed.

Lemma trimEnd_split s :
  ∃ post, s = JS.trimEnd s ++ post ∧
          Forall (fun c => JS.isTrimmed c = true) post.
Proof.
  unfold JS.trimEnd.
  destruct (trimStart_split (reverse s)) as (pre & Heq & Hpre).
  exists (reverse pre). split.
  - rewrite <- reverse_app, <- Heq. by rewrite reverse_involutive.
  - by apply Forall_reverse.
Qed.

Lemma trimEnd_last s c :
  last (JS.trimEnd s) = Some c → JS.isTrimmed c = false.
Proof.
  unfold JS.trimEnd. rewrite last_reverse. apply trimStart_head.
Qed.

Lemma trimEnd_head s c :
  JS.isTrimmed c = false → head s = Some c → head (JS.trimEnd s) = Some c.
Proof.
  intros Hc. destruct s as [|c' s]; [done|]. simpl. intros [= ->].
  unfold JS.trimEnd. rewrite reverse_cons.
  destruct (trimStart_app_keep (reverse s) c [] Hc) as [r ->].
  by rewrite reverse_app.
Qed.

(** [trim] removes a prefix and a suffix made of white space and line
    terminators only, and what is left neither starts nor ends with
    one. *)
Lemma trim_spec s :
  (∃ pre post,
      s = pre ++ JS.trim s ++ post ∧
      Forall (fun c => JS.isTrimmed c = true) pre ∧
      Forall (fun c => JS.isTrimmed c = true) post) ∧
  (∀ c, head (JS.trim s) = Some c → JS.isTrimmed c = false) ∧
  (∀ c, last (JS.trim s) = Some c → JS.isTrimmed c = false).
Proof.
  unfold JS.trim. split; [|split].
  - destruct (trimStart_split s) as (pre & Heq & Hpre).
    destruct (trimEnd_split (JS.trimStart s)) as (post & Heq' & Hpost).
    exists pre, post. split; [|done]. by rewrite <- Heq'.
  - intros c Hc. destruct (head (JS.trimStart s)) as [c0|] eqn:H0.
    + pose proof (trimStart_head _ _ H0) as Hn.
      rewrite (trimEnd_head _ _ Hn H0) in Hc. by injection Hc as <-.
    + destruct (JS.trimStart s); [|done]. done.
  - apply trimEnd_last.
Qed.

End trim_facts.

(* ===================================================================== *)
(** * generateText: whitespace trimming                                   *)
(* ===================================================================== *)

Section generateText_facts.
Context {PROMPT RESPONSE USAGE OPTIONS ResponsePromise : Type}.
Implicit Types
  (model : GenerateText.TextGenerationModel
             PROMPT RESPONSE USAGE OPTIONS ResponsePromise).

Import GenerateText.

(** C3.  The output value that [generateText] extracts from a raw response
    is the model's extracted text with leading and trailing white space
    stripped when [trimWhitespace] is unset or [true]: it is [trim] of the
    text, that is, the text minus a prefix and a suffix of white space
    only, neither starting nor ending with white space.  When
    [trimWhitespace] is [false] it is the extracted text unchanged.  An
    absent setting behaves as [true]. *)
Theorem generateText_trimWhitespace model (prompt : PROMPT)
    (options : option OPTIONS) (response : RESPONSE) :
  let extracted := extractText model response in
  let out :=
    extractOutputValue (generateText_call model prompt options) response in
  (trimWhitespace (settings model) = None ∨
   trimWhitespace (settings model) = Some true →
     out = JS.trim extracted ∧
     (∃ pre post,
         extracted = pre ++ out ++ post ∧
         Forall (fun c => JS.isTrimmed c = true) pre ∧
         Forall (fun c => JS.isTrimmed c = true) post) ∧
     (∀ c, head out = Some c → JS.isTrimmed c = false) ∧
     (∀ c, last out = Some c → JS.isTrimmed c = false)) ∧
  (trimWhitespace (settings model) = Some false → out = extracted) ∧
  (trimWhitespace (settings model) = None →
     out =
       extractOutputValue
         (generateText_call
            {| settings := {| trimWhitespace := Some true |};
               generateTextResponse := generateTextResponse model;
               extractText := extractText model;
               extractUsage := extractUsage model |}
            prompt options)
         response).
Proof.
  cbn zeta. simpl. split; [|split].
  - intros Hset.
    assert (default true (trimWhitespace (settings model)) = true) as ->
      by (destruct Hset as [-> | ->]; done).
    split; [done|]. apply trim_spec.
  - by intros ->.
  - by intros ->.
Qed.

End generateText_facts.

Lemma generateText_trimWhitespace_witness :
  GenerateText.extractOutputValue
    (GenerateText.generateText_call (Samples.echo_model None) "prompt" None)
    (JS.utf16 "  a robot learned to love. ")
  = JS.utf16 "a robot learned to love."
  ∧
  GenerateText.extractOutputValue
    (GenerateText.generateText_call (Samples.echo_model (Some false)) "prompt" None)
    (JS.utf16 "  a robot learned to love. ")
  = JS.utf16 "  a robot learned to love. ".
Proof.
  split.
  - pose proof (generateText_trimWhitespace (Samples.echo_model None) "prompt" None
                  (JS.utf16 "  a robot learned to love. ")) as [H _].
    destruct H as [H _]; [by left|]. exact H.
  - pose proof (generateText_trimWhitespace (Samples.echo_model (Some false))
                  "prompt" None
                  (JS.utf16 "  a robot learned to love. ")) as (_ & H & _).
    exact (H eq_refl).
Defined.

(* ===================================================================== *)
(** * Value extraction                                                    *)
(* ===================================================================== *)

(** C8.  Extraction reads the first element of the response's array with
    no emptiness guard.  On a non-empty [choices] (respectively [data])
    array, [extractOutput] returns [choices[0].text] and
    [extractBase64Image] returns [data[0].b64_json]; on an empty array
    extraction throws instead of returning a value. *)
Theorem extraction_reads_first_element :
  (∀ rawOutput : OpenAITextGenerationModel.OpenAITextGenerationResponse,
      OpenAITextGenerationModel.choices rawOutput ≠ [] →
      ∃ first,
        OpenAITextGenerationModel.choices rawOutput !! 0%nat = Some first ∧
        OpenAITextGenerationModel.extractOutput rawOutput
          = inr (OpenAITextGenerationModel.text first)) ∧
  (∀ response : OpenAIImageGenerationModel.OpenAIImageGenerationBase64JsonResponse,
      OpenAIImageGenerationModel.data response ≠ [] →
      ∃ first,
        OpenAIImageGenerationModel.data response !! 0%nat = Some first ∧
        OpenAIImageGenerationModel.extractBase64Image response
          = inr (OpenAIImageGenerationModel.b64_json first)) ∧
  (∀ rawOutput : OpenAITextGenerationModel.OpenAITextGenerationResponse,
      OpenAITextGenerationModel.choices rawOutput = [] →
      ∃ e, OpenAITextGenerationModel.extractOutput rawOutput = inl e) ∧
  (∀ response : OpenAIImageGenerationModel.OpenAIImageGenerationBase64JsonResponse,
      OpenAIImageGenerationModel.data response = [] →
      ∃ e, OpenAIImageGenerationModel.extractBase64Image response = inl e).
Proof.
  repeat split.
  - intros [[|c rest]] Hne; [done|]. by exists c.
  - intros [created [|d rest]] Hne; [done|]. by exists d.
  - intros [cs] Hempty. simpl in Hempty. subst cs.
    by exists (JS.CannotReadProperty "text").
  - intros [created ds] Hempty. simpl in Hempty. subst ds.
    by exists (JS.CannotReadProperty "b64_json").
Qed.

Lemma extraction_reads_first_element_witness :
  OpenAITextGenerationModel.extractOutput
    {| OpenAITextGenerationModel.choices :=
         [ {| OpenAITextGenerationModel.text := "Once upon a time" |};
           {| OpenAITextGenerationModel.text := "A robot" |} ] |}
  = inr "Once upon a time"
  ∧
  (∃ e,
     OpenAIImageGenerationModel.extractBase64Image
       {| OpenAIImageGenerationModel.created := 0;
          OpenAIImageGenerationModel.data := [] |}
     = inl e).
Proof.
  pose proof extraction_reads_first_element as (Htext & _ & _ & Himage).
  split.
  - destruct (Htext
                {| OpenAITextGenerationModel.choices :=
                     [ {| OpenAITextGenerationModel.text := "Once upon a time" |};
                       {| OpenAITextGenerationModel.text := "A robot" |} ] |})
      as (first & Hfirst & Hout); [done|].
    simpl in Hfirst. injection Hfirst as <-. exact Hout.
  - apply Himage. reflexivity.
Defined.

(* ===================================================================== *)
(** * useTool                                                             *)
(* ===================================================================== *)

Section effect_facts.
Context {Event : Type}.

Lemma count_app (p : Event -> bool) (t1 t2 : list Event) :
  Effect.count p (t1 ++ t2) = (Effect.count p t1 + Effect.count p t2)%nat.
Proof. unfold Effect.count. by rewrite filter_app, length_app. Qed.

End effect_facts.

Section useTool_facts.
Context {MODEL PROMPT RESPONSE OPTIONS SCHEMA INPUT OUTPUT : Type}.
Context {World Exn ModelFunctionPromise : Type}.

Import UseTool.

Variable generateJson :
  MODEL -> SchemaDefinition SCHEMA -> (SchemaDefinition SCHEMA -> PROMPT) ->
  option OPTIONS -> ModelFunctionPromise.
Variable asFullResponse :
  ModelFunctionPromise -> World -> World * (Exn + FullResponse RESPONSE INPUT).

Implicit Types
  (model : MODEL) (tool : Tool SCHEMA INPUT OUTPUT World Exn)
  (options : option OPTIONS)
  (s : Effect.state World (event MODEL PROMPT OPTIONS SCHEMA INPUT)).

(** The schema definition and prompt that [useTool] passes on. *)
Local Abbreviation definition_of tool :=
  {| sd_name := name tool;
     sd_description := description tool;
     sd_schema := inputSchema tool |}.

(** C1.  When parameter generation succeeds with a validated value and the
    tool's action returns an output for it, [useTool] returns the record
    whose [tool] is the tool's name, whose [parameters] is that value and
    whose [result] is the action's output on that value; the generation
    call it made carried the tool's name, description and input schema. *)
Theorem useTool_returns_tool_parameters_result model tool
    (prompt : Tool SCHEMA INPUT OUTPUT World Exn -> PROMPT) options s
    (w1 w2 : World) (full : FullResponse RESPONSE INPUT) (out : OUTPUT) :
  asFullResponse
    (generateJson model (definition_of tool) (fun _ => prompt tool) options)
    (Effect.world s) = (w1, inr full) →
  execute tool (output full) w1 = (w2, inr out) →
  useTool generateJson asFullResponse model tool prompt options s =
    ({| Effect.world := w2;
        Effect.trace :=
          Effect.trace s ++
          [ GenerateJson model (definition_of tool) (fun _ => prompt tool)
              options;
            ExecuteAction (name tool) (output full) ] |},
     inr {| UseTool.tool := name tool;
            parameters := output full;
            result := out |}).
Proof.
  intros Hgen Hexec.
  unfold useTool, await_generateJson, executeTool, Effect.bind,
    Effect.perform, Effect.ret.
  rewrite Hgen. simpl. rewrite Hexec. simpl.
  by rewrite <- app_assoc.
Qed.

(** C2.  If parameter generation rejects, [useTool] rejects with that very
    error after the generation call alone: the tool's action is not
    invoked and the world is as generation left it.  If generation
    succeeds, the action is invoked exactly once, on the generated value,
    after the generation call, whether or not the action then fails. *)
Theorem useTool_invokes_action_only_after_generation model tool
    (prompt : Tool SCHEMA INPUT OUTPUT World Exn -> PROMPT) options s :
  let generation :=
    asFullResponse
      (generateJson model (definition_of tool) (fun _ => prompt tool) options)
      (Effect.world s) in
  let run := useTool generateJson asFullResponse model tool prompt options s in
  (∀ w1 e, generation = (w1, inl e) →
     run = ({| Effect.world := w1;
               Effect.trace :=
                 Effect.trace s ++
                 [ GenerateJson model (definition_of tool)
                     (fun _ => prompt tool) options ] |},
            inl (Raised e)) ∧
     Effect.count is_ExecuteAction (Effect.trace run.1) =
       Effect.count is_ExecuteAction (Effect.trace s)) ∧
  (∀ w1 full, generation = (w1, inr full) →
     Effect.trace run.1 =
       Effect.trace s ++
       [ GenerateJson model (definition_of tool) (fun _ => prompt tool)
           options;
         ExecuteAction (name tool) (output full) ] ∧
     Effect.world run.1 = (execute tool (output full) w1).1 ∧
     Effect.count is_ExecuteAction (Effect.trace run.1) =
       S (Effect.count is_ExecuteAction (Effect.trace s))).
Proof.
  cbn zeta. split.
  - intros w1 e Hgen.
    unfold useTool, await_generateJson, Effect.bind, Effect.perform.
    rewrite Hgen. simpl. split; [done|].
    rewrite count_app. unfold Effect.count at 2. simpl. lia.
  - intros w1 full Hgen.
    unfold useTool, await_generateJson, executeTool, Effect.bind,
      Effect.perform, Effect.ret.
    rewrite Hgen. simpl.
    destruct (execute tool (output full) w1) as [w2 [e|out]] eqn:Hexec;
      simpl; rewrite <- app_assoc; simpl;
      (split; [done|]; split; [done|]);
      rewrite count_app; unfold Effect.count at 2; simpl; lia.
Qed.

End useTool_facts.

Lemma useTool_returns_tool_parameters_result_witness :
  UseTool.useTool Samples.sample_generateJson Samples.generation_ok
    tt Samples.weather_tool (fun _ => "What is the weather in Paris?") None
    Samples.sample_start
  = ({| Effect.world := 1%nat;
        Effect.trace :=
          [ UseTool.GenerateJson tt
              {| UseTool.sd_name := "getWeather";
                 UseTool.sd_description := "Get the weather in a city";
                 UseTool.sd_schema := tt |}
              (fun _ => "What is the weather in Paris?") None;
            UseTool.ExecuteAction "getWeather" "paris" ] |},
     inr {| UseTool.tool := "getWeather";
            UseTool.parameters := "paris";
            UseTool.result := "sunny in paris" |}).
Proof.
  exact (useTool_returns_tool_parameters_result
           Samples.sample_generateJson Samples.generation_ok
           tt Samples.weather_tool (fun _ => "What is the weather in Paris?")
           None Samples.sample_start 0%nat 1%nat
           {| UseTool.output := "paris"; UseTool.response := tt |}
           "sunny in paris" eq_refl eq_refl).
Defined.

Lemma useTool_invokes_action_only_after_generation_witness :
  Effect.count UseTool.is_ExecuteAction
    (Effect.trace
       (UseTool.useTool Samples.sample_generateJson Samples.generation_fails
          tt Samples.weather_tool (fun _ => "What is the weather in Paris?")
          None Samples.sample_start).1) = 0%nat
  ∧
  Effect.count UseTool.is_ExecuteAction
    (Effect.trace
       (UseTool.useTool Samples.sample_generateJson Samples.generation_ok
          tt Samples.weather_tool (fun _ => "What is the weather in Paris?")
          None Samples.sample_start).1) = 1%nat.
Proof.
  split.
  - pose proof (useTool_invokes_action_only_after_generation
                  Samples.sample_generateJson Samples.generation_fails
                  tt Samples.weather_tool
                  (fun _ => "What is the weather in Paris?")
                  None Samples.sample_start) as [H _].
    exact (proj2 (H 0%nat "schema mismatch" eq_refl)).
  - pose proof (useTool_invokes_action_only_after_generation
                  Samples.sample_generateJson Samples.generation_ok
                  tt Samples.weather_tool
                  (fun _ => "What is the weather in Paris?")
                  None Samples.sample_start) as [_ H].
    exact (proj2 (proj2 (H 0%nat
                           {| UseTool.output := "paris";
                              UseTool.response := tt |} eq_refl))).
Defined.

(* ===================================================================== *)
(** * The store: allocation and [Object.assign]                           *)
(* ===================================================================== *)

Section store_facts.
Context {Host : Type}.
Implicit Types (h : gmap JS.loc (gmap string (JS.value Host))).
Implicit Types (o s t : gmap string (JS.value Host)).
Implicit Types (l target : JS.loc) (v : JS.value Host).

Lemma alloc_fresh o h : h !! (Store.alloc o h).1 = None.
Proof.
  unfold Store.alloc. simpl. apply not_elem_of_dom, is_fresh.
Qed.

Lemma alloc_frame o h l :
  is_Some (h !! l) → (Store.alloc o h).2 !! l = h !! l.
Proof.
  intros Hl. unfold Store.alloc. simpl.
  apply lookup_insert_ne. intros <-.
  apply elem_of_dom in Hl. by apply is_fresh in Hl.
Qed.

Lemma alloc_spec o h l h' :
  Store.alloc o h = (l, h') →
  h !! l = None ∧ h' !! l = Some o ∧
  ∀ l0, is_Some (h !! l0) → h' !! l0 = h !! l0.
Proof.
  intros Halloc.
  pose proof (alloc_fresh o h) as Hfresh.
  pose proof (alloc_frame o h) as Hframe.
  rewrite Halloc in Hfresh, Hframe. simpl in *.
  split; [done|]. split; [|done].
  unfold Store.alloc in Halloc. injection Halloc as <- <-.
  apply lookup_insert_eq.
Qed.

Lemma assign1_frame target h v l :
  l ≠ target → Store.assign1 target h v !! l = h !! l.
Proof.
  intros Hne. unfold Store.assign1.
  destruct (h !! target); [|done]. by apply lookup_insert_ne.
Qed.

Lemma Object_assign_frame target (sources : list (JS.value Host)) h l :
  l ≠ target → Store.Object_assign target sources h !! l = h !! l.
Proof.
  intros Hne. unfold Store.Object_assign.
  revert h. induction sources as [|v sources IH]; intros h; simpl; [done|].
  rewrite IH. by apply assign1_frame.
Qed.

(** [Object.assign({}, a, b)] where [a] and [b] are live objects: the new
    object holds [b]'s properties over [a]'s. *)
Lemma Object_assign_into_fresh h v1 v2 s1 s2 :
  Store.deref h v1 = Some s1 →
  Store.deref h v2 = Some s2 →
  let '(target, h1) := Store.alloc ∅ h in
  Store.Object_assign target [v1; v2] h1
    = <[target := JS.Object_assign ∅ [Some s1; Some s2]]> h.
Proof.
  intros H1 H2. pose proof (alloc_fresh (∅ : gmap string (JS.value Host)) h) as Hfresh.
  unfold Store.alloc in *. simpl in Hfresh. set (target := fresh (dom h)) in *.
  assert (∀ v s, Store.deref h v = Some s → v ≠ JS.VRef target) as Hlive.
  { intros v s Hv ->. simpl in Hv. congruence. }
  assert (∀ v s t0, Store.deref h v = Some s →
            Store.deref (<[target := t0]> h) v = Some s) as Hkeep.
  { intros v s t0 Hv. pose proof (Hlive _ _ Hv) as Hne.
    destruct v; try done. simpl in *.
    rewrite lookup_insert_ne; [done|]. by intros ->. }
  unfold Store.Object_assign. simpl.
  unfold Store.assign1 at 2. rewrite lookup_insert_eq.
  rewrite (Hkeep _ _ _ H1), insert_insert_eq.
  unfold Store.assign1. rewrite lookup_insert_eq.
  rewrite (Hkeep _ _ _ H2), insert_insert_eq.
  done.
Qed.

End store_facts.

(** Lookups in an object literal with literal keys. *)
Ltac literal_lookup :=
  unfold JS.get, JS.Object_fromEntries, JS.literal; simpl foldl;
  repeat first
    [ rewrite lookup_insert_eq
    | rewrite lookup_insert_ne by discriminate
    | rewrite lookup_empty ];
  simpl.

(* ===================================================================== *)
(** * withSettings                                                        *)
(* ===================================================================== *)

Section withSettings_facts.
Context {Host Handler Opaque : Type}.
Variable getTiktokenTokenizerForModel : JS.value Host -> JS.value Host.

Implicit Types (h : gmap JS.loc (gmap string (JS.value Host))).
Implicit Types (g : gmap JS.loc
                      (gmap string
                         (JS.value (OpenAIImageGenerationModel.host Handler Opaque)))).

(** The store that [withSettings] of the text model returns, when the
    instance, its settings and the additional settings are live objects
    and the instance's model is a known one. *)
Lemma text_withSettings_store h (this : JS.loc) (additionalSettings : JS.value Host)
    o old additional maxTokens :
  h !! this = Some o →
  Store.deref h (JS.get o "settings") = Some old →
  Store.deref h additionalSettings = Some additional →
  OpenAITextGenerationModel.OPENAI_TEXT_GENERATION_MODELS
    !! JS.toString (JS.get o "model") = Some maxTokens →
  OpenAITextGenerationModel.withSettings getTiktokenTokenizerForModel
    this additionalSettings h
  = inr (Store.alloc
           (JS.literal
              [ ("provider", JS.VStr "openai");
                ("baseUrl", JS.get o "baseUrl");
                ("apiKey", JS.get o "apiKey");
                ("model", JS.get o "model");
                ("settings", JS.VRef (fresh (dom h)));
                ("tokenizer",
                  getTiktokenTokenizerForModel (JS.get o "model"));
                ("maxTokens", JS.VNum maxTokens) ])
           (<[fresh (dom h) :=
                JS.Object_assign ∅ [Some old; Some additional]]> h)).
Proof.
  intros Hthis Hold Hadd Hmodel.
  unfold OpenAITextGenerationModel.withSettings. rewrite Hthis. simpl.
  pose proof (Object_assign_into_fresh h _ _ _ _ Hold Hadd) as Hassign.
  unfold Store.alloc in Hassign. simpl in Hassign. rewrite Hassign.
  unfold OpenAITextGenerationModel.new. rewrite Hmodel. done.
Qed.

(** The same for the image model. *)
Lemma image_withSettings_store g (this : JS.loc)
    (additionalSettings : JS.value (OpenAIImageGenerationModel.host Handler Opaque))
    o old additional :
  g !! this = Some o →
  Store.deref g (JS.get o "settings") = Some old →
  Store.deref g additionalSettings = Some additional →
  OpenAIImageGenerationModel.withSettings this additionalSettings g
  = Store.alloc
      (JS.literal
         [ ("settings", JS.VRef (fresh (dom g)));
           ("provider", JS.VStr "openai");
           ("modelName", JS.VNull) ])
      (<[fresh (dom g) := JS.Object_assign ∅ [Some old; Some additional]]> g).
Proof.
  intros Hthis Hold Hadd.
  unfold OpenAIImageGenerationModel.withSettings. rewrite Hthis. simpl.
  pose proof (Object_assign_into_fresh g _ _ _ _ Hold Hadd) as Hassign.
  unfold Store.alloc in Hassign. simpl in Hassign. by rewrite Hassign.
Qed.

(** Whatever [withSettings] is called on, the objects that were live
    before the call are the same after it. *)
Lemma text_withSettings_frame h this additionalSettings this' h' l :
  OpenAITextGenerationModel.withSettings getTiktokenTokenizerForModel
    this additionalSettings h = inr (this', h') →
  is_Some (h !! l) →
  h' !! l = h !! l ∧ this' ≠ l.
Proof.
  unfold OpenAITextGenerationModel.withSettings, OpenAITextGenerationModel.new.
  simpl.
  match goal with
  | |- context [Store.assign1 ?t (Store.assign1 ?t' ?h0 ?v1) ?v2] =>
      set (h2 := Store.assign1 t (Store.assign1 t' h0 v1) v2)
  end.
  destruct (JS.prop _ _ _) as [e|maxTokens]; [done|].
  intros [= <- <-] Hl.
  assert (l ≠ fresh (dom h)) as Hne.
  { intros ->. apply elem_of_dom in Hl. by apply is_fresh in Hl. }
  assert (h2 !! l = h !! l) as Hh2.
  { unfold h2. rewrite !assign1_frame by done.
    by apply lookup_insert_ne. }
  assert (fresh (dom h2) ≠ l) as Hnew.
  { intros Heq. assert (l ∈ dom h2) as Hin
      by (apply elem_of_dom; by rewrite Hh2).
    rewrite <- Heq in Hin. by apply is_fresh in Hin. }
  split; [|done]. by rewrite lookup_insert_ne.
Qed.

Lemma image_withSettings_frame g this
    (additionalSettings : JS.value (OpenAIImageGenerationModel.host Handler Opaque))
    l :
  is_Some (g !! l) →
  (OpenAIImageGenerationModel.withSettings this additionalSettings g).2 !! l
    = g !! l ∧
  (OpenAIImageGenerationModel.withSettings this additionalSettings g).1 ≠ l.
Proof.
  unfold OpenAIImageGenerationModel.withSettings, OpenAIImageGenerationModel.new.
  simpl.
  match goal with
  | |- context [Store.assign1 ?t (Store.assign1 ?t' ?h0 ?v1) ?v2] =>
      set (g2 := Store.assign1 t (Store.assign1 t' h0 v1) v2)
  end.
  intros Hl.
  assert (l ≠ fresh (dom g)) as Hne.
  { intros ->. apply elem_of_dom in Hl. by apply is_fresh in Hl. }
  assert (g2 !! l = g !! l) as Hg2.
  { unfold g2. rewrite !assign1_frame by done.
    by apply lookup_insert_ne. }
  assert (fresh (dom g2) ≠ l) as Hnew.
  { intros Heq. assert (l ∈ dom g2) as Hin
      by (apply elem_of_dom; by rewrite Hg2).
    rewrite <- Heq in Hin. by apply is_fresh in Hin. }
  split; [|done]. by rewrite lookup_insert_ne.
Qed.

End withSettings_facts.

Section withSettings_theorems.
Context {Host Handler Opaque : Type}.

Implicit Types (h : gmap JS.loc (gmap string (JS.value Host))).
Implicit Types (g : gmap JS.loc
                      (gmap string
                         (JS.value (OpenAIImageGenerationModel.host Handler Opaque)))).

(** C4.  [withSettings] returns a new model instance and mutates nothing:
    the instance it returns has an identity no object had before the call,
    every object that existed before the call has the same properties
    after it, and in particular the original instance still refers to the
    same settings object with the same value in every field.  This holds
    for the text model, whose [withSettings] returns an instance whenever
    the original's model is a known one, and for the image model. *)
Theorem withSettings_does_not_mutate_original :
  (∀ (getTiktokenTokenizerForModel : JS.value Host -> JS.value Host)
     h this o (additionalSettings : JS.value Host),
      h !! this = Some o →
      is_Some (OpenAITextGenerationModel.OPENAI_TEXT_GENERATION_MODELS
                 !! JS.toString (JS.get o "model")) →
      ∃ this' h',
        OpenAITextGenerationModel.withSettings getTiktokenTokenizerForModel
          this additionalSettings h = inr (this', h') ∧
        h !! this' = None ∧
        (∀ l, is_Some (h !! l) → h' !! l = h !! l) ∧
        (∀ inst,
            OpenAITextGenerationModel.instance_at h this = Some inst →
            OpenAITextGenerationModel.instance_at h' this = Some inst)) ∧
  (∀ g this o
     (additionalSettings : JS.value (OpenAIImageGenerationModel.host Handler Opaque)),
      g !! this = Some o →
      ∃ this' g',
        OpenAIImageGenerationModel.withSettings this additionalSettings g
          = (this', g') ∧
        g !! this' = None ∧
        (∀ l, is_Some (g !! l) → g' !! l = g !! l) ∧
        (∀ settings,
            OpenAIImageGenerationModel.settings_at g this = Some settings →
            OpenAIImageGenerationModel.settings_at g' this = Some settings)).
Proof.
  split.
  - intros getTok h this o additionalSettings Hthis [maxTokens Hmodel].
    destruct (OpenAITextGenerationModel.withSettings getTok this
                additionalSettings h) as [e|[this' h']] eqn:Hcall.
    { exfalso. revert Hcall.
      unfold OpenAITextGenerationModel.withSettings,
        OpenAITextGenerationModel.new.
      rewrite Hthis. simpl. by rewrite Hmodel. }
    pose proof (text_withSettings_frame getTok h this additionalSettings
                  this' h') as Hframe.
    exists this', h'. split; [done|]. split; [|split].
    + destruct (h !! this') as [o'|] eqn:Hnew; [|done].
      by destruct (Hframe this' Hcall (mk_is_Some _ _ Hnew)) as [_ Hne].
    + intros l Hl. by apply Hframe.
    + intros inst. unfold OpenAITextGenerationModel.instance_at.
      rewrite (proj1 (Hframe this Hcall (mk_is_Some _ _ Hthis))), Hthis.
      destruct (JS.get o "settings") as [| | | | |ls|]; simpl; try done.
      destruct (h !! ls) as [s|] eqn:Hs; [|done].
      by rewrite (proj1 (Hframe ls Hcall (mk_is_Some _ _ Hs))), Hs.
  - intros g this o additionalSettings Hthis.
    pose proof (image_withSettings_frame g this additionalSettings) as Hframe.
    destruct (OpenAIImageGenerationModel.withSettings this
                additionalSettings g) as [this' g'] eqn:Hcall.
    simpl in Hframe.
    exists this', g'. split; [done|]. split; [|split].
    + destruct (g !! this') as [o'|] eqn:Hnew; [|done].
      by destruct (Hframe this' (mk_is_Some _ _ Hnew)) as [_ Hne].
    + intros l Hl. by apply Hframe.
    + intros settings. unfold OpenAIImageGenerationModel.settings_at.
      rewrite (proj1 (Hframe this (mk_is_Some _ _ Hthis))), Hthis.
      destruct (JS.get o "settings") as [| | | | |ls|]; simpl; try done.
      destruct (g !! ls) as [s|] eqn:Hs; [|done].
      by rewrite (proj1 (Hframe ls (mk_is_Some _ _ Hs))), Hs.
Qed.

End withSettings_theorems.

Lemma withSettings_does_not_mutate_original_witness :
  (∃ this' h',
      OpenAITextGenerationModel.withSettings Samples.sample_tokenizer
        3%positive (JS.VRef 2) Samples.text_store = inr (this', h') ∧
      h' !! 1%positive = Some {[ "temperature" := JS.VNum 1 ]}) ∧
  (∃ this' g',
      OpenAIImageGenerationModel.withSettings 3%positive (JS.VRef 2)
        Samples.image_store = (this', g') ∧
      g' !! 1%positive = Some {[ "size" := JS.VStr "512x512" ]}).
Proof.
  pose proof (@withSettings_does_not_mutate_original unit unit unit)
    as [Htext Himage].
  split.
  - destruct (Htext Samples.sample_tokenizer Samples.text_store 3%positive
                _ (JS.VRef 2) eq_refl)
      as (this' & h' & Hcall & _ & Hframe & _).
    { eexists. vm_compute. reflexivity. }
    exists this', h'. split; [exact Hcall|].
    rewrite Hframe; [reflexivity|]. eexists. reflexivity.
  - destruct (Himage Samples.image_store 3%positive _ (JS.VRef 2) eq_refl)
      as (this' & g' & Hcall & _ & Hframe & _).
    exists this', g'. split; [exact Hcall|].
    rewrite Hframe; [reflexivity|]. eexists. reflexivity.
Defined.

(* ===================================================================== *)
(** * Settings layers                                                     *)
(* ===================================================================== *)

(** The first of two optional values that is present. *)
Local Notation "a 'or_else' b" :=
  (match a with Some v => Some v | None => b end)
  (at level 60, right associativity, only parsing).

Section layering_facts.
Context {Host : Type}.

Lemma lookup_Object_assign_two (old additional : gmap string (JS.value Host))
    (k : string) :
  JS.Object_assign ∅ [Some old; Some additional] !! k
    = (additional !! k) or_else (old !! k).
Proof.
  unfold JS.Object_assign. simpl. rewrite !lookup_union, lookup_empty.
  by destruct (additional !! k), (old !! k).
Qed.

End layering_facts.

Section callSettings_facts.
Context {Handler Opaque : Type}.

Import OpenAIImageGenerationModel.

Implicit Types (settings : gmap string (JS.value (host Handler Opaque))).
Implicit Types (options : option (CallOptions Handler Opaque)).

(** The value of the call settings at a key, layer by layer, last layer
    first. *)
Lemma lookup_callSettings key settings prompt options (k : string) :
  callSettings key settings prompt options !! k =
    (if decide (k = "abortSignal")
     then Some (Run.abortSignal_of (from_option run None options))
     else if decide (k = "prompt") then Some (JS.VStr prompt)
     else if decide (k = "responseFormat")
     then Some (match options with
                | Some o => JS.VHost (HResponseFormat (responseFormat o))
                | None => JS.VUndefined
                end)
     else None)
    or_else (from_option opt_settings None options ≫= (.!! k))
    or_else (settings !! k)
    or_else
    (if decide (k = "apiKey") then Some key
     else if decide (k = "user")
     then Some (if JS.truthy (JS.get settings "isUserIdForwardingEnabled")
                then Run.userId_of (from_option run None options)
                else JS.VUndefined)
     else None).
Proof.
  unfold callSettings, JS.Object_assign. simpl foldl.
  rewrite lookup_union, lookup_assign1.
  destruct options as [[rf fid [per_call|] rn]|]; simpl;
    rewrite ?lookup_union;
    unfold JS.literal; simpl foldl;
    rewrite !lookup_insert, lookup_empty;
    repeat case_decide; simplify_eq;
    repeat match goal with
           | |- context [?m !! ?key'] => destruct (m !! key')
           end;
    done.
Qed.

End callSettings_facts.

Section layering_theorems.
Context {Host Handler Opaque RESULT World Exn : Type}.

Import OpenAIImageGenerationModel.

Variable failedOpenAICallResponseHandler : Handler.
Variable postJsonToApi :
  PostJsonArguments Handler Opaque -> World ->
  World * (thrown Exn + RESULT).
Variable callWithRetryAndThrottle :
  JS.value (host Handler Opaque) -> JS.value (host Handler Opaque) ->
  Effect.M World (event Handler Opaque) (thrown Exn) RESULT ->
  Effect.M World (event Handler Opaque) (thrown Exn) RESULT.
Variable getTiktokenTokenizerForModel : JS.value Host -> JS.value Host.

Implicit Types (settings : gmap string (JS.value (host Handler Opaque))).
Implicit Types (options : option (CallOptions Handler Opaque)).

(** C5.  Settings are merged key by key and a later layer overrides an
    earlier one.  In [callAPI], once the API key is resolved, the call is
    made with the call settings whose value at each key comes from the
    last layer (abortSignal, prompt, responseFormat) if the key is one of
    these three, else from the per-call [options.settings] if they have
    the key, else from the model's settings if they have it, else from the
    defaults (apiKey, user).  In [withSettings], of the text and of the
    image model, the new instance's settings hold, at each key, the value
    of [additionalSettings] if it has the key and the existing value
    otherwise. *)
Theorem settings_layers_later_overrides_earlier :
  (∀ settings env prompt options key (k : string),
      apiKey (Exn := Exn) settings env = inr key →
      let call_settings := callSettings key settings prompt options in
      callAPI failedOpenAICallResponseHandler postJsonToApi
        callWithRetryAndThrottle settings env prompt options
      = callWithRetryAndThrottle
          (JS.get call_settings "retry") (JS.get call_settings "throttle")
          (callOpenAIImageGenerationAPI failedOpenAICallResponseHandler
             postJsonToApi call_settings) ∧
      call_settings !! k =
        (if decide (k = "abortSignal")
         then Some (Run.abortSignal_of (from_option run None options))
         else if decide (k = "prompt") then Some (JS.VStr prompt)
         else if decide (k = "responseFormat")
         then Some (match options with
                    | Some o => JS.VHost (HResponseFormat (responseFormat o))
                    | None => JS.VUndefined
                    end)
         else None)
        or_else (from_option opt_settings None options ≫= (.!! k))
        or_else (settings !! k)
        or_else
        (if decide (k = "apiKey") then Some key
         else if decide (k = "user")
         then Some (if JS.truthy (JS.get settings "isUserIdForwardingEnabled")
                    then Run.userId_of (from_option run None options)
                    else JS.VUndefined)
         else None)) ∧
  (∀ (h : gmap JS.loc (gmap string (JS.value Host))) this o
     additionalSettings old additional maxTokens,
      h !! this = Some o →
      Store.deref h (JS.get o "settings") = Some old →
      Store.deref h additionalSettings = Some additional →
      OpenAITextGenerationModel.OPENAI_TEXT_GENERATION_MODELS
        !! JS.toString (JS.get o "model") = Some maxTokens →
      ∃ this' h' new,
        OpenAITextGenerationModel.withSettings getTiktokenTokenizerForModel
          this additionalSettings h = inr (this', h') ∧
        OpenAITextGenerationModel.instance_at h' this' =
          Some {| OpenAITextGenerationModel.baseUrl := JS.get o "baseUrl";
                  OpenAITextGenerationModel.apiKey := JS.get o "apiKey";
                  OpenAITextGenerationModel.model := JS.get o "model";
                  OpenAITextGenerationModel.settings := new |} ∧
        ∀ k : string, new !! k = (additional !! k) or_else (old !! k)) ∧
  (∀ (g : gmap JS.loc (gmap string (JS.value (host Handler Opaque)))) this o
     additionalSettings old additional,
      g !! this = Some o →
      Store.deref g (JS.get o "settings") = Some old →
      Store.deref g additionalSettings = Some additional →
      ∃ this' g' new,
        withSettings this additionalSettings g = (this', g') ∧
        settings_at g' this' = Some new ∧
        ∀ k : string, new !! k = (additional !! k) or_else (old !! k)).
Proof.
  split; [|split].
  - intros settings env prompt options key k Hkey. cbn zeta. split.
    { unfold callAPI. by rewrite Hkey. }
    apply lookup_callSettings.
  - intros h this o additionalSettings old additional maxTokens
      Hthis Hold Hadd Hmodel.
    rewrite (text_withSettings_store getTiktokenTokenizerForModel h this
               additionalSettings o old additional maxTokens) by done.
    match goal with
    | |- context [Store.alloc ?lit ?h2] =>
        destruct (Store.alloc lit h2) as [this' h'] eqn:Halloc;
        apply alloc_spec in Halloc as (_ & Hnew & Hlive)
    end.
    exists this', h', (JS.Object_assign ∅ [Some old; Some additional]).
    split; [done|]. split.
    + unfold OpenAITextGenerationModel.instance_at.
      rewrite Hnew. literal_lookup.
      rewrite Hlive; rewrite lookup_insert_eq; done.
    + apply lookup_Object_assign_two.
  - intros g this o additionalSettings old additional Hthis Hold Hadd.
    rewrite (image_withSettings_store g this additionalSettings o old
               additional) by done.
    match goal with
    | |- context [Store.alloc ?lit ?g2] =>
        destruct (Store.alloc lit g2) as [this' g'] eqn:Halloc;
        apply alloc_spec in Halloc as (_ & Hnew & Hlive)
    end.
    exists this', g', (JS.Object_assign ∅ [Some old; Some additional]).
    split; [done|]. split.
    + unfold settings_at.
      rewrite Hnew. literal_lookup.
      rewrite Hlive; rewrite lookup_insert_eq; done.
    + apply lookup_Object_assign_two.
Qed.

End layering_theorems.

Lemma settings_layers_later_overrides_earlier_witness :
  (let call_settings :=
     OpenAIImageGenerationModel.callSettings (JS.VStr "sk-model")
       Samples.image_settings "a robot"
       (Some (Samples.call_options (Some Samples.per_call_settings) "alice")) in
   call_settings !! "n" = Some (JS.VNum 4) ∧
   call_settings !! "size" = Some (JS.VStr "512x512") ∧
   call_settings !! "prompt" = Some (JS.VStr "a robot")) ∧
  (∃ this' h' new,
      OpenAITextGenerationModel.withSettings Samples.sample_tokenizer
        3%positive (JS.VRef 2) Samples.text_store = inr (this', h') ∧
      OpenAITextGenerationModel.settings
        <$> OpenAITextGenerationModel.instance_at h' this' = Some new ∧
      new !! "maxTokens" = Some (JS.VNum 500) ∧
      new !! "temperature" = Some (JS.VNum 1)).
Proof.
  pose proof (@settings_layers_later_overrides_earlier
                unit unit unit unit nat unit tt
                Samples.sample_postJsonToApi Samples.call_once
                Samples.sample_tokenizer) as (Hcall & Htext & _).
  split.
  - pose proof (fun k =>
        proj2 (Hcall Samples.image_settings ∅ "a robot"
                 (Some (Samples.call_options
                          (Some Samples.per_call_settings) "alice"))
                 (JS.VStr "sk-model") k eq_refl)) as Hk.
    cbn zeta in *.
    split; [|split]; (etransitivity; [apply Hk | vm_compute; reflexivity]).
  - destruct (Htext Samples.text_store 3%positive _ (JS.VRef 2)
                {[ "temperature" := JS.VNum 1 ]}
                {[ "maxTokens" := JS.VNum 500 ]} 4096 eq_refl eq_refl eq_refl
                eq_refl)
      as (this' & h' & new & Hcall' & Hinst & Hnew).
    exists this', h', new. split; [exact Hcall'|]. split.
    + rewrite Hinst. reflexivity.
    + split; (etransitivity; [apply Hnew | vm_compute; reflexivity]).
Defined.

(* ===================================================================== *)
(** * Forwarding of the user id                                           *)
(* ===================================================================== *)

Section forwarding_facts.
Context {Host : Type}.
Implicit Types (settings : gmap string (JS.value Host)).

Lemma forwarding_enabled settings :
  JS.get settings "isUserIdForwardingEnabled" = JS.VBool true →
  JS.truthy (JS.get settings "isUserIdForwardingEnabled") = true.
Proof. by intros ->. Qed.

Lemma forwarding_disabled settings :
  JS.get settings "isUserIdForwardingEnabled" = JS.VBool false ∨
  settings !! "isUserIdForwardingEnabled" = None →
  JS.truthy (JS.get settings "isUserIdForwardingEnabled") = false.
Proof.
  intros [-> | Hunset]; [done|]. by rewrite (get_absent _ _ Hunset).
Qed.

(** The [user] property of the text model's request arguments, when the
    settings have the declared type. *)
Lemma text_arguments_user (this : OpenAITextGenerationModel.instance Host)
    (input : string) (context : option (Run.Run Host)) :
  OpenAITextGenerationModel.settings_well_typed
    (OpenAITextGenerationModel.settings this) →
  JS.get (OpenAITextGenerationModel.generate_arguments this input context)
    "user"
  = if JS.truthy (JS.get (OpenAITextGenerationModel.settings this)
                    "isUserIdForwardingEnabled")
    then Run.userId_of context
    else JS.VUndefined.
Proof.
  intros Htyped.
  assert (OpenAITextGenerationModel.settings this !! "user" = None) as Hno.
  { destruct (_ !! "user") as [v|] eqn:Hv; [|done].
    apply Htyped in Hv.
    by apply (bool_decide_pack _) in Hv. }
  unfold OpenAITextGenerationModel.generate_arguments, JS.get. simpl.
  rewrite lookup_union, Hno.
  unfold JS.literal. simpl foldl.
  rewrite lookup_insert_eq. done.
Qed.

End forwarding_facts.

(** C6, as stated, does not hold for [callAPI]: a [user] entry in the
    per-call settings is what the provider receives.  With forwarding
    enabled and a run of user ["alice"], per-call settings naming ["bob"]
    put ["bob"] in the request; with forwarding not enabled, the same
    per-call settings still put ["bob"], not [undefined], in the
    request. *)
Lemma userId_forwarding_counterexample :
  (JS.get Samples.image_settings "isUserIdForwardingEnabled" = JS.VBool true ∧
   ∃ req,
     OpenAIImageGenerationModel.request tt
       (OpenAIImageGenerationModel.callSettings (JS.VStr "sk-model")
          Samples.image_settings "a robot"
          (Some (Samples.call_options (Some Samples.per_call_user) "alice")))
     = inr req ∧
     JS.get (OpenAIImageGenerationModel.body req) "user" = JS.VStr "bob" ∧
     JS.get (OpenAIImageGenerationModel.body req) "user"
       ≠ Run.userId_of (Some (Samples.run_of "alice"))) ∧
  (Samples.image_settings_private !! "isUserIdForwardingEnabled" = None ∧
   ∃ req,
     OpenAIImageGenerationModel.request tt
       (OpenAIImageGenerationModel.callSettings (JS.VStr "sk-model")
          Samples.image_settings_private "a robot"
          (Some (Samples.call_options (Some Samples.per_call_user) "alice")))
     = inr req ∧
     JS.get (OpenAIImageGenerationModel.body req) "user" = JS.VStr "bob" ∧
     JS.get (OpenAIImageGenerationModel.body req) "user" ≠ JS.VUndefined).
Proof.
  split; (split; [reflexivity|]); eexists; (split; [reflexivity|]);
    (split; [reflexivity|]); discriminate.
Qed.

Section forwarding_theorems.
Context {Host Completion Handler Opaque RESULT World Exn : Type}.

Import OpenAIImageGenerationModel.

Variable generateOpenAITextCompletion : gmap string (JS.value Host) -> Completion.
Variable failedOpenAICallResponseHandler : Handler.
Variable postJsonToApi :
  PostJsonArguments Handler Opaque -> World ->
  World * (thrown Exn + RESULT).
Variable callWithRetryAndThrottle :
  JS.value (host Handler Opaque) -> JS.value (host Handler Opaque) ->
  Effect.M World (event Handler Opaque) (thrown Exn) RESULT ->
  Effect.M World (event Handler Opaque) (thrown Exn) RESULT.

Implicit Types (settings : gmap string (JS.value (host Handler Opaque))).

(** C6, amended.  The run's user id reaches the provider request only when
    the model's [isUserIdForwardingEnabled] setting is true.  In the text
    model's [generate], the request's [user] is the context's user id when
    forwarding is enabled and [undefined] when it is false or unset.  In
    the image model's [callAPI] the same holds provided the per-call
    settings have no [user] entry of their own; when they have one, that
    entry is the request's [user], whatever the flag.  In both models, two
    runs that differ only in their user id lead to the same request, and
    the same call, when forwarding is not enabled. *)
Theorem userId_forwarded_only_when_enabled :
  (∀ (this : OpenAITextGenerationModel.instance Host) (input : string)
     (context : option (Run.Run Host)),
      OpenAITextGenerationModel.settings_well_typed
        (OpenAITextGenerationModel.settings this) →
      let user :=
        JS.get (OpenAITextGenerationModel.generate_arguments this input context)
          "user" in
      (JS.get (OpenAITextGenerationModel.settings this)
         "isUserIdForwardingEnabled" = JS.VBool true →
       user = Run.userId_of context) ∧
      (JS.get (OpenAITextGenerationModel.settings this)
         "isUserIdForwardingEnabled" = JS.VBool false ∨
       OpenAITextGenerationModel.settings this
         !! "isUserIdForwardingEnabled" = None →
       user = JS.VUndefined)) ∧
  (∀ (this : OpenAITextGenerationModel.instance Host) (input : string)
     (signal : JS.value Host) (userId1 userId2 : option string),
      JS.get (OpenAITextGenerationModel.settings this)
        "isUserIdForwardingEnabled" = JS.VBool false ∨
      OpenAITextGenerationModel.settings this
        !! "isUserIdForwardingEnabled" = None →
      OpenAITextGenerationModel.generate generateOpenAITextCompletion
        this input
        (Some {| Run.userId := userId1; Run.abortSignal := signal |})
      = OpenAITextGenerationModel.generate generateOpenAITextCompletion
          this input
          (Some {| Run.userId := userId2; Run.abortSignal := signal |})) ∧
  (∀ settings key prompt rf fid per_call rn,
      settings_well_typed settings →
      let call_settings :=
        callSettings key settings prompt
          (Some {| responseFormat := rf; functionId := fid;
                   opt_settings := per_call; run := rn |}) in
      ∃ req,
        request failedOpenAICallResponseHandler call_settings = inr req ∧
        (per_call ≫= (.!! "user") = None →
           (JS.get settings "isUserIdForwardingEnabled" = JS.VBool true →
            JS.get (body req) "user" = Run.userId_of rn) ∧
           (JS.get settings "isUserIdForwardingEnabled" = JS.VBool false ∨
            settings !! "isUserIdForwardingEnabled" = None →
            JS.get (body req) "user" = JS.VUndefined)) ∧
        (∀ v, per_call ≫= (.!! "user") = Some v →
              JS.get (body req) "user" = v)) ∧
  (∀ settings env prompt rf fid per_call signal (userId1 userId2 : option string),
      JS.get settings "isUserIdForwardingEnabled" = JS.VBool false ∨
      settings !! "isUserIdForwardingEnabled" = None →
      callAPI failedOpenAICallResponseHandler postJsonToApi
        callWithRetryAndThrottle settings env prompt
        (Some {| responseFormat := rf; functionId := fid;
                 opt_settings := per_call;
                 run := Some {| Run.userId := userId1;
                                Run.abortSignal := signal |} |})
      = callAPI failedOpenAICallResponseHandler postJsonToApi
          callWithRetryAndThrottle settings env prompt
          (Some {| responseFormat := rf; functionId := fid;
                   opt_settings := per_call;
                   run := Some {| Run.userId := userId2;
                                  Run.abortSignal := signal |} |})).
Proof.
  split; [|split; [|split]].
  - intros this input context Htyped. cbn zeta.
    rewrite (text_arguments_user this input context Htyped). split.
    + intros Hon. by rewrite (forwarding_enabled _ Hon).
    + intros Hoff. by rewrite (forwarding_disabled _ Hoff).
  - intros this input signal userId1 userId2 Hoff.
    unfold OpenAITextGenerationModel.generate,
      OpenAITextGenerationModel.generate_arguments.
    by rewrite (forwarding_disabled _ Hoff).
  - intros settings key prompt rf fid per_call rn Htyped. cbn zeta.
    assert (settings !! "user" = None) as Hno.
    { destruct (settings !! "user") as [v|] eqn:Hv; [|done].
      apply Htyped in Hv.
      by apply (bool_decide_pack _) in Hv. }
    set (cs := callSettings _ _ _ _).
    assert (JS.get cs "responseFormat" = JS.VHost (HResponseFormat rf))
      as Hrf.
    { apply get_lookup. unfold cs. by rewrite lookup_callSettings. }
    pose proof (lookup_callSettings key settings prompt
                  (Some {| responseFormat := rf; functionId := fid;
                           opt_settings := per_call; run := rn |})
                  "user") as Huser.
    fold cs in Huser. simpl in Huser. rewrite Hno in Huser.
    unfold request. rewrite Hrf. simpl.
    eexists. split; [reflexivity|]. simpl.
    assert (JS.get
              (JS.literal
                 [ ("prompt", JS.get cs "prompt"); ("n", JS.get cs "n");
                   ("size", JS.get cs "size");
                   ("response_format", JS.VStr (type rf));
                   ("user", JS.get cs "user") ]) "user"
            = JS.get cs "user") as -> by (literal_lookup; done).
    split.
    + intros Hnone. rewrite Hnone in Huser.
      rewrite (get_lookup _ _ _ Huser). split.
      * intros Hon. by rewrite (forwarding_enabled _ Hon).
      * intros Hoff. by rewrite (forwarding_disabled _ Hoff).
    + intros v Hv. rewrite Hv in Huser. by apply get_lookup.
  - intros settings env prompt rf fid per_call signal userId1 userId2 Hoff.
    unfold callAPI, callSettings. simpl.
    by rewrite (forwarding_disabled _ Hoff).
Qed.

End forwarding_theorems.

Lemma userId_forwarded_only_when_enabled_witness :
  JS.get
    (OpenAITextGenerationModel.generate_arguments Samples.text_instance
       "Write a short story" (Some (Samples.text_run "alice")))
    "user" = JS.VStr "alice" ∧
  (∃ req,
      OpenAIImageGenerationModel.request tt
        (OpenAIImageGenerationModel.callSettings (JS.VStr "sk-model")
           Samples.image_settings "a robot"
           (Some (Samples.call_options None "alice"))) = inr req ∧
      JS.get (OpenAIImageGenerationModel.body req) "user" = JS.VStr "alice") ∧
  OpenAIImageGenerationModel.callAPI tt Samples.sample_postJsonToApi
    Samples.call_once Samples.image_settings_private ∅ "a robot"
    (Some (Samples.call_options None "alice"))
  = OpenAIImageGenerationModel.callAPI tt Samples.sample_postJsonToApi
      Samples.call_once Samples.image_settings_private ∅ "a robot"
      (Some (Samples.call_options None "bob")).
Proof.
  pose proof (@userId_forwarded_only_when_enabled
                unit unit unit unit unit nat unit (fun _ => tt) tt
                Samples.sample_postJsonToApi Samples.call_once)
    as (Htext & _ & Himage & Hsame).
  split; [|split].
  - apply (Htext Samples.text_instance "Write a short story"
             (Some (Samples.text_run "alice"))).
    + apply (bool_decide_unpack _). vm_compute. exact I.
    + vm_compute. reflexivity.
  - destruct (Himage Samples.image_settings (JS.VStr "sk-model") "a robot"
                (OpenAIImageGenerationModel.ResponseFormat_base64Json tt)
                None None (Some (Samples.run_of "alice")))
      as (req & Hreq & Hfwd & _).
    { apply (bool_decide_unpack _). vm_compute. exact I. }
    exists req. split; [exact Hreq|].
    apply Hfwd; vm_compute; reflexivity.
  - apply (Hsame Samples.image_settings_private ∅ "a robot"
             (OpenAIImageGenerationModel.ResponseFormat_base64Json tt)
             None None
             (JS.VHost (OpenAIImageGenerationModel.HOpaque tt))
             (Some "alice") (Some "bob")).
    right. vm_compute. reflexivity.
Defined.

(* ===================================================================== *)
(** * The settings projection for events                                  *)
(* ===================================================================== *)

Section settingsForEvent_facts.
Context {Handler Opaque : Type}.

Import OpenAIImageGenerationModel.

Implicit Types (settings : gmap string (JS.value (host Handler Opaque))).

Lemma NoDup_fst_filter {A B} (f : A * B -> bool) (l : list (A * B)) :
  NoDup l.*1 → NoDup (List.filter f l).*1.
Proof.
  induction l as [|x l IH]; simpl; [done|].
  rewrite NoDup_cons. intros [Hx Hl].
  destruct (f x); simpl; [|by apply IH].
  apply NoDup_cons. split; [|by apply IH].
  intros Hin. apply Hx.
  apply list_elem_of_fmap in Hin as (y & -> & Hy).
  apply list_elem_of_fmap. exists y. split; [done|].
  apply list_elem_of_In in Hy. apply filter_In in Hy as [Hy _].
  by apply list_elem_of_In.
Qed.

(** C9.  The event projection of the settings has, at each key, the
    model's own entry when the key is [baseUrl], [n] or [size], and no
    entry at any other key; so it has no [apiKey], [retry] or [throttle]
    entry, whatever the settings hold. *)
Theorem settingsForEvent_only_event_properties settings :
  (∀ k : string,
      settingsForEvent settings !! k =
        if bool_decide (k ∈ ["baseUrl"; "n"; "size"])
        then settings !! k
        else None) ∧
  settingsForEvent settings !! "apiKey" = None ∧
  settingsForEvent settings !! "retry" = None ∧
  settingsForEvent settings !! "throttle" = None.
Proof.
  assert (∀ k : string,
            settingsForEvent settings !! k =
              if bool_decide (k ∈ ["baseUrl"; "n"; "size"])
              then settings !! k
              else None) as Hall.
  { intros k. apply option_eq. intros v.
    unfold settingsForEvent, JS.Object_fromEntries, JS.Object_entries.
    rewrite lookup_literal_NoDup
      by apply NoDup_fst_filter, NoDup_fst_map_to_list.
    rewrite list_elem_of_In, filter_In, <- list_elem_of_In.
    rewrite elem_of_map_to_list.
    unfold JS.includes, eventSettingProperties.
    destruct (bool_decide (k ∈ ["baseUrl"; "n"; "size"]));
      intuition congruence. }
  split; [exact Hall|].
  split; [|split]; by rewrite Hall.
Qed.

End settingsForEvent_facts.

(* ===================================================================== *)
(** * The API key                                                         *)
(* ===================================================================== *)

Section apiKey_theorems.
Context {Handler Opaque RESULT World Exn : Type}.

Import OpenAIImageGenerationModel.

Variable failedOpenAICallResponseHandler : Handler.
Variable postJsonToApi :
  PostJsonArguments Handler Opaque -> World ->
  World * (thrown Exn + RESULT).
Variable callWithRetryAndThrottle :
  JS.value (host Handler Opaque) -> JS.value (host Handler Opaque) ->
  Effect.M World (event Handler Opaque) (thrown Exn) RESULT ->
  Effect.M World (event Handler Opaque) (thrown Exn) RESULT.

Implicit Types (settings : gmap string (JS.value (host Handler Opaque))).
Implicit Types (options : option (CallOptions Handler Opaque)).
Implicit Types (env : gmap string string).

(** C10.  When [settings.apiKey] is [null] or [undefined] and the
    environment has no [OPENAI_API_KEY], [callAPI] rejects with the error
    that says the OpenAI API key is missing, and it does so before any
    request: the trace and the world are as they were, whatever the
    request and retry collaborators do.  When [settings.apiKey] is set it
    is the key, whatever the environment holds; the environment variable
    is the key only when [settings.apiKey] is [null] or [undefined]. *)
Theorem callAPI_requires_api_key settings env prompt options :
  (JS.nullish (JS.get settings "apiKey") = true →
   env !! "OPENAI_API_KEY" = None →
   ∀ s : Effect.state World (event Handler Opaque),
     callAPI failedOpenAICallResponseHandler postJsonToApi
       callWithRetryAndThrottle settings env prompt options s
     = (s, inl (Error missing_api_key_message))) ∧
  (JS.nullish (JS.get settings "apiKey") = false →
   apiKey (Exn := Exn) settings env = inr (JS.get settings "apiKey") ∧
   ∀ env', apiKey (Exn := Exn) settings env'
             = apiKey (Exn := Exn) settings env) ∧
  (JS.nullish (JS.get settings "apiKey") = true →
   ∀ key, env !! "OPENAI_API_KEY" = Some key →
          apiKey (Exn := Exn) settings env = inr (JS.VStr key)).
Proof.
  split; [|split].
  - intros Hnull Henv s. unfold callAPI, apiKey, JS.coalesce.
    by rewrite Hnull, Henv.
  - intros Hset.
    assert (∀ env0, apiKey (Exn := Exn) settings env0
                      = inr (JS.get settings "apiKey")) as Hkey.
    { intros env0. unfold apiKey, JS.coalesce.
      rewrite Hset. simpl. by rewrite Hset. }
    split; [apply Hkey|]. intros env'. by rewrite !Hkey.
  - intros Hnull key Henv. unfold apiKey, JS.coalesce.
    rewrite Hnull, Henv. done.
Qed.

End apiKey_theorems.

Lemma callAPI_requires_api_key_witness :
  OpenAIImageGenerationModel.callAPI tt Samples.sample_postJsonToApi
    Samples.call_once {[ "size" := JS.VStr "512x512" ]} ∅ "a robot"
    (Some (Samples.call_options None "alice"))
    {| Effect.world := 0%nat; Effect.trace := [] |}
  = ({| Effect.world := 0%nat; Effect.trace := [] |},
     inl (OpenAIImageGenerationModel.Error
            OpenAIImageGenerationModel.missing_api_key_message)) ∧
  OpenAIImageGenerationModel.apiKey (Exn := unit) Samples.image_settings
    {[ "OPENAI_API_KEY" := "sk-env" ]} = inr (JS.VStr "sk-model") ∧
  OpenAIImageGenerationModel.apiKey (Exn := unit)
    ({[ "size" := JS.VStr "512x512" ]}
       : gmap string (JS.value (OpenAIImageGenerationModel.host unit unit)))
    {[ "OPENAI_API_KEY" := "sk-env" ]} = inr (JS.VStr "sk-env").
Proof.
  split; [|split].
  - apply (proj1 (@callAPI_requires_api_key unit unit unit nat unit tt
                    Samples.sample_postJsonToApi Samples.call_once
                    {[ "size" := JS.VStr "512x512" ]} ∅ "a robot"
                    (Some (Samples.call_options None "alice"))));
      reflexivity.
  - apply (proj1 (proj2 (@callAPI_requires_api_key unit unit unit nat unit tt
                    Samples.sample_postJsonToApi Samples.call_once
                    Samples.image_settings
                    {[ "OPENAI_API_KEY" := "sk-env" ]} "a robot" None))
                    eq_refl).
  - apply (proj2 (proj2 (@callAPI_requires_api_key unit unit unit nat unit tt
                    Samples.sample_postJsonToApi Samples.call_once
                    {[ "size" := JS.VStr "512x512" ]}
                    {[ "OPENAI_API_KEY" := "sk-env" ]} "a robot" None)));
      reflexivity.
Defined.

(* ===================================================================== *)
(** * Retry with exponential backoff                                      *)
(* ===================================================================== *)

Section retry_facts.
Context {V E : Type}.

Import Retry.

Implicit Types (p : ExponentialBackoff) (attempt : nat -> outcome V E).

(** What the executor does from attempt [n] on when [remaining] more
    attempts are allowed after it and every attempt fails. *)
Local Abbreviation sustained_trace p n remaining :=
  (Attempt n ::
   flat_map (fun k => [Wait (delay p k); Attempt k]) (seq (S n) remaining)).

Lemma run_sustained_failure p attempt (errors : nat -> E) :
  (∀ k, attempt k = RetryableFailure (errors k)) →
  ∀ remaining n fuel,
    (n + remaining = maxTries p)%nat →
    (remaining < fuel)%nat →
    run fuel (shouldRetry p) attempt n
      = Some (sustained_trace p n remaining,
              RetryableFailure (errors (maxTries p))).
Proof.
  intros Hfail.
  induction remaining as [|remaining IH]; intros n fuel Hn Hfuel;
    (destruct fuel as [|fuel]; [lia|]); cbn [run]; rewrite Hfail.
  - assert (shouldRetry p (S n) (errors n) = Stop) as ->.
    { unfold shouldRetry.
      by assert ((S n <=? maxTries p)%nat = false) as ->
        by (apply Nat.leb_gt; lia). }
    replace n with (maxTries p) by lia. done.
  - assert (shouldRetry p (S n) (errors n) = RetryAfter (delay p (S n)))
      as ->.
    { unfold shouldRetry.
      by assert ((S n <=? maxTries p)%nat = true) as ->
        by (apply Nat.leb_le; lia). }
    rewrite (IH (S n) fuel) by lia. done.
Qed.

Lemma attempts_sustained (d : nat -> Q) (l : list nat) :
  attempts (flat_map (fun k => [Wait (d k); Attempt k]) l) = l.
Proof.
  induction l as [|k l IH]; [done|].
  change (k :: attempts (flat_map (fun k => [Wait (d k); Attempt k]) l)
          = k :: l).
  by rewrite IH.
Qed.

Lemma waits_sustained (d : nat -> Q) (l : list nat) :
  waits (flat_map (fun k => [Wait (d k); Attempt k]) l) = map d l.
Proof.
  induction l as [|k l IH]; [done|].
  change (d k :: waits (flat_map (fun k => [Wait (d k); Attempt k]) l)
          = d k :: map d l).
  by rewrite IH.
Qed.

(** C7.  With the exponential backoff policy of [maxTries = N] (N at least
    one), when every attempt fails with a retryable error the executor
    returns, given fuel for N attempts, after exactly the attempts 1 to N;
    before attempt k, for k from 2 to N, and only there, it waits
    initialDelay × backoffFactor^(k-1); and the failure it surfaces is the
    error of attempt N itself. *)
Theorem exponential_backoff_sustained_failure p attempt (errors : nat -> E)
    (fuel : nat) :
  (1 ≤ maxTries p)%nat →
  (maxTries p ≤ fuel)%nat →
  (∀ k, attempt k = RetryableFailure (errors k)) →
  ∃ t,
    run fuel (shouldRetry p) attempt 1
      = Some (t, RetryableFailure (errors (maxTries p))) ∧
    t = Attempt 1 ::
        flat_map
          (fun k =>
             [ Wait (initialDelay p * backoffFactor p ^ Z.of_nat (k - 1))%Q;
               Attempt k ])
          (seq 2 (maxTries p - 1)) ∧
    attempts t = seq 1 (maxTries p) ∧
    waits t =
      map (fun k => (initialDelay p * backoffFactor p ^ Z.of_nat (k - 1))%Q)
          (seq 2 (maxTries p - 1)).
Proof.
  intros Hone Hfuel Hfail.
  eexists. split.
  - apply (run_sustained_failure p attempt errors Hfail
             (maxTries p - 1) 1 fuel); lia.
  - split; [reflexivity|]. split.
    + change (1%nat ::
              attempts
                (flat_map (fun k => [Wait (delay p k); Attempt k])
                   (seq 2 (maxTries p - 1)))
              = seq 1 (maxTries p)).
      rewrite (attempts_sustained (delay p)).
      replace (maxTries p) with (S (maxTries p - 1)) at 2 by lia. done.
    + change (waits
                (flat_map (fun k => [Wait (delay p k); Attempt k])
                   (seq 2 (maxTries p - 1)))
              = map (delay p) (seq 2 (maxTries p - 1))).
      apply waits_sustained.
Qed.

End retry_facts.

Lemma exponential_backoff_sustained_failure_witness :
  ∃ t,
    Retry.run 8 (Retry.shouldRetry Samples.docs_policy)
      Samples.always_failing 1
    = Some (t, Retry.RetryableFailure 8%nat) ∧
    Retry.attempts t = [1; 2; 3; 4; 5; 6; 7; 8]%nat ∧
    length (Retry.waits t) = 7%nat.
Proof.
  destruct (exponential_backoff_sustained_failure (V := unit)
              Samples.docs_policy Samples.always_failing (fun k => k) 8)
    as (t & Hrun & _ & Hattempts & Hwaits).
  - simpl. lia.
  - simpl. lia.
  - reflexivity.
  - exists t. split; [exact Hrun|]. split; [exact Hattempts|].
    rewrite Hwaits. reflexivity.
Defined.

(* ===================================================================== *)
(** * The definitions at work                                             *)
(* ===================================================================== *)

(** [trim] removes Unicode spaces and line terminators, not only ASCII
    blanks, and keeps interior white space. *)
Example trim_unicode :
  JS.trim [0x2003; 0x000A; 104; 0x0020; 105; 0x3000; 0x000D]%N
  = [104; 0x0020; 105]%N.
Proof. reflexivity. Qed.

Example trim_all_white_space : JS.trim (JS.utf16 "   ") = [].
Proof. reflexivity. Qed.

(** The event projection of settings that hold an API key. *)
Example settingsForEvent_sample :
  OpenAIImageGenerationModel.settingsForEvent Samples.image_settings
  = {[ "n" := JS.VNum 1; "size" := JS.VStr "512x512" ]}.
Proof. vm_compute. reflexivity. Qed.

(** The request of a call with per-call settings: the per-call [n] wins,
    the model's [size] stays, the user id is forwarded. *)
Example request_sample :
  OpenAIImageGenerationModel.request tt
    (OpenAIImageGenerationModel.callSettings (JS.VStr "sk-model")
       Samples.image_settings "a robot"
       (Some (Samples.call_options (Some Samples.per_call_settings) "alice")))
  = inr {| OpenAIImageGenerationModel.url :=
             "https://api.openai.com/v1/images/generations";
           OpenAIImageGenerationModel.headers_Authorization :=
             "Bearer sk-model";
           OpenAIImageGenerationModel.body :=
             JS.literal
               [ ("prompt", JS.VStr "a robot");
                 ("n", JS.VNum 4);
                 ("size", JS.VStr "512x512");
                 ("response_format", JS.VStr "b64_json");
                 ("user", JS.VStr "alice") ];
           OpenAIImageGenerationModel.failedResponseHandler := tt;
           OpenAIImageGenerationModel.successfulResponseHandler := Some tt;
           OpenAIImageGenerationModel.post_abortSignal :=
             JS.VHost (OpenAIImageGenerationModel.HOpaque tt) |}.
Proof. vm_compute. reflexivity. Qed.

(** A call with a key issues one request. *)
Example callAPI_sample :
  Effect.count (fun _ => true)
    (Effect.trace
       (OpenAIImageGenerationModel.callAPI tt Samples.sample_postJsonToApi
          Samples.call_once Samples.image_settings ∅ "a robot"
          (Some (Samples.call_options None "alice"))
          {| Effect.world := 0%nat; Effect.trace := [] |}).1)
  = 1%nat.
Proof. vm_compute. reflexivity. Qed.

(** When the action fails, [useTool] rejects with a tool execution error,
    not with the action's exception as it is. *)
Example useTool_action_failure :
  (UseTool.useTool Samples.sample_generateJson Samples.generation_ok
     tt
     {| UseTool.name := "getWeather";
        UseTool.description := "Get the weather in a city";
        UseTool.inputSchema := tt;
        UseTool.execute :=
          fun (_ : string) (calls : nat) =>
            (S calls, inl "service down" : string + string) |}
     (fun _ => "What is the weather in Paris?") None
     Samples.sample_start).2
  = inl (UseTool.ToolExecutionError "getWeather" "paris" "service down").
Proof. reflexivity. Qed.

(** The first waits of the documentation example's policy. *)
Example docs_policy_delays :
  Retry.delay Samples.docs_policy 2 = (1000 * 2 ^ 1)%Q ∧
  (Retry.delay Samples.docs_policy 2 == 2000)%Q ∧
  (Retry.delay Samples.docs_policy 8 == 128000)%Q.
Proof. split; [reflexivity|]. split; reflexivity. Qed.

(* ===================================================================== *)
(** * Further properties: generateText                                    *)
(* ===================================================================== *)

Section trim_more_facts.
Implicit Types (s : list N) (c : N).

Lemma trimStart_clean s :
  (∀ c, head s = Some c → JS.isTrimmed c = false) → JS.trimStart s = s.
Proof.
  destruct s as [|c s]; [done|]. simpl. intros Hc.
  by rewrite (Hc c eq_refl).
Qed.

Lemma trimEnd_clean s :
  (∀ c, last s = Some c → JS.isTrimmed c = false) → JS.trimEnd s = s.
Proof.
  intros Hc. unfold JS.trimEnd. rewrite trimStart_clean.
  - apply reverse_involutive.
  - intros c. rewrite head_reverse. apply Hc.
Qed.

Lemma trimStart_all_white s :
  Forall (fun c => JS.isTrimmed c = true) s → JS.trimStart s = [].
Proof.
  induction 1 as [|c s Hc _ IH]; simpl; [done|]. by rewrite Hc.
Qed.

Lemma trimStart_length s : (length (JS.trimStart s) ≤ length s)%nat.
Proof.
  destruct (trimStart_split s) as (pre & Heq & _).
  rewrite Heq at 2. rewrite length_app. lia.
Qed.

Lemma trim_length s : (length (JS.trim s) ≤ length s)%nat.
Proof.
  destruct (trim_spec s) as [(pre & post & Heq & _) _].
  rewrite Heq at 2. rewrite !length_app. lia.
Qed.

Lemma trim_clean s :
  (∀ c, head s = Some c → JS.isTrimmed c = false) →
  (∀ c, last s = Some c → JS.isTrimmed c = false) →
  JS.trim s = s.
Proof.
  intros Hhead Hlast. unfold JS.trim.
  rewrite (trimStart_clean s Hhead). by apply trimEnd_clean.
Qed.

End trim_more_facts.

Section generateText_more.
Context {PROMPT RESPONSE USAGE OPTIONS ResponsePromise : Type}.
Implicit Types
  (model : GenerateText.TextGenerationModel
             PROMPT RESPONSE USAGE OPTIONS ResponsePromise).

Import GenerateText.

(** X1.  With trimming on (unset or [true]), the output of [generateText]
    is the extracted text itself exactly when that text has no white
    space at either end; the output is never longer than the extracted
    text, and trimming it again changes nothing. *)
Theorem generateText_trimming_touches_only_the_ends model (prompt : PROMPT)
    (options : option OPTIONS) (response : RESPONSE) :
  trimWhitespace (settings model) ≠ Some false →
  let extracted := extractText model response in
  let out :=
    extractOutputValue (generateText_call model prompt options) response in
  (out = extracted ↔
     (∀ c, head extracted = Some c → JS.isTrimmed c = false) ∧
     (∀ c, last extracted = Some c → JS.isTrimmed c = false)) ∧
  (length out ≤ length extracted)%nat ∧
  JS.trim out = out.
Proof.
  intros Hon. cbn zeta. simpl.
  assert (default true (trimWhitespace (settings model)) = true) as ->.
  { destruct (trimWhitespace (settings model)) as [[|]|]; done. }
  destruct (trim_spec (extractText model response)) as (_ & Hhead & Hlast).
  split; [split|split].
  - intros Heq. rewrite Heq in Hhead, Hlast. done.
  - intros [Hh Hl]. by apply trim_clean.
  - apply trim_length.
  - by apply trim_clean.
Qed.

(** X2.  A response whose text is white space only (or empty) gives the
    empty string when trimming is on, and is handed on as it is when
    trimming is off. *)
Theorem generateText_white_space_only_response model (prompt : PROMPT)
    (options : option OPTIONS) (response : RESPONSE) :
  Forall (fun c => JS.isTrimmed c = true) (extractText model response) →
  extractOutputValue (generateText_call model prompt options) response =
    if default true (trimWhitespace (settings model))
    then []
    else extractText model response.
Proof.
  intros Hwhite. simpl.
  destruct (default true (trimWhitespace (settings model))); [|done].
  unfold JS.trim. by rewrite (trimStart_all_white _ Hwhite).
Qed.

End generateText_more.

Lemma generateText_trimming_touches_only_the_ends_witness :
  GenerateText.extractOutputValue
    (GenerateText.generateText_call (Samples.echo_model None) "prompt" None)
    (JS.utf16 "once upon a time")
  = JS.utf16 "once upon a time".
Proof.
  pose proof (generateText_trimming_touches_only_the_ends
                (Samples.echo_model None) "prompt" None
                (JS.utf16 "once upon a time")) as H.
  destruct H as [[_ H] _]; [discriminate|].
  apply H. split; intros c [= <-]; reflexivity.
Defined.

Lemma generateText_white_space_only_response_witness :
  GenerateText.extractOutputValue
    (GenerateText.generateText_call (Samples.echo_model (Some true))
       "prompt" None)
    [0x0020; 0x000A; 0x3000]%N
  = [].
Proof.
  apply (generateText_white_space_only_response
           (Samples.echo_model (Some true)) "prompt" None
           [0x0020; 0x000A; 0x3000]%N).
  repeat constructor.
Defined.

(* ===================================================================== *)
(** * Further properties: the cost of an image generation call           *)
(* ===================================================================== *)

Section cost_facts.

Import OpenAIImageGenerationCost.


End cost_facts.


(* ===================================================================== *)
(** * Further properties: TikTokenTokenizer                               *)
(* ===================================================================== *)

Section tokenizer_facts.
Context {Exn : Type}.
Variable never : string -> option Exn.
Variable getEncoding : string -> TikTokenTokenizer.Tiktoken.

Import TikTokenTokenizer.

(** X4.  Every model of the text generation model's table
    [OPENAI_TEXT_GENERATION_MODELS] has an encoding: a tokenizer can be
    constructed for it without an exception, and its encoding is
    [p50k_base] for the three davinci-00x models of the table and
    [r50k_base] for the others. *)
Theorem tokenizer_exists_for_every_text_model (model : string) (maxTokens : Z) :
  OpenAITextGenerationModel.OPENAI_TEXT_GENERATION_MODELS !! model
    = Some maxTokens →
  ∃ name,
    getEncodingNameForModel never model = inr name ∧
    new never getEncoding (ForModel model) = inr (getEncoding name) ∧
    name = (if bool_decide
                 (model ∈ ["code-davinci-002"; "text-davinci-002";
                           "text-davinci-003"])
            then "p50k_base" else "r50k_base").
Proof.
  intros Hmodel.
  assert (map_Forall
            (fun k (_ : Z) =>
               bool_decide (k ∈ p50k_models) || bool_decide (k ∈ r50k_models))
            OpenAITextGenerationModel.OPENAI_TEXT_GENERATION_MODELS)
    as Hknown.
  { apply (bool_decide_unpack _). vm_compute. exact I. }
  apply Hknown in Hmodel. simpl in Hmodel.
  unfold new, getEncodingNameForModel.
  change (bool_decide
            (model ∈ ["code-davinci-002"; "text-davinci-002";
                      "text-davinci-003"]))
    with (bool_decide (model ∈ p50k_models)).
  destruct (bool_decide (model ∈ p50k_models)).
  - by eexists.
  - simpl in Hmodel. destruct (bool_decide (model ∈ r50k_models)); [|done].
    by eexists.
Qed.

(** X5.  [getEncodingNameForModel] returns one of the three encoding names
    and only for a model among its case labels; for any other model it
    throws, and so does the constructor given that model, whereas a
    constructor given an encoding never consults the model table. *)
Theorem getEncodingNameForModel_unknown_model_throws (model : string) :
  (model ∉ p50k_models ++ r50k_models ++ cl100k_models →
   ∃ e, getEncodingNameForModel never model = inl e ∧
        new never getEncoding (ForModel model) = inl e ∧
        (never model = None → e = Error ("Unknown model: " +:+ model))) ∧
  (∀ name, getEncodingNameForModel never model = inr name →
           model ∈ p50k_models ++ r50k_models ++ cl100k_models ∧
           name ∈ ["p50k_base"; "r50k_base"; "cl100k_base"]) ∧
  new never getEncoding (ForEncoding model) = inr (getEncoding model).
Proof.
  unfold new, getEncodingNameForModel.
  destruct (bool_decide (model ∈ p50k_models)) eqn:Hp;
    [apply bool_decide_eq_true in Hp | apply bool_decide_eq_false in Hp];
    [|destruct (bool_decide (model ∈ r50k_models)) eqn:Hr;
      [apply bool_decide_eq_true in Hr | apply bool_decide_eq_false in Hr];
      [|destruct (bool_decide (model ∈ cl100k_models)) eqn:Hc;
        [apply bool_decide_eq_true in Hc
        |apply bool_decide_eq_false in Hc]]].
  - assert (model ∈ p50k_models ++ r50k_models ++ cl100k_models) as Hin
      by (rewrite !elem_of_app; auto).
    split; [done|]. split; [|done].
    intros name [= <-]. split; [done|]. rewrite !elem_of_cons. auto.
  - assert (model ∈ p50k_models ++ r50k_models ++ cl100k_models) as Hin
      by (rewrite !elem_of_app; auto).
    split; [done|]. split; [|done].
    intros name [= <-]. split; [done|]. rewrite !elem_of_cons. auto.
  - assert (model ∈ p50k_models ++ r50k_models ++ cl100k_models) as Hin
      by (rewrite !elem_of_app; auto).
    split; [done|]. split; [|done].
    intros name [= <-]. split; [done|]. rewrite !elem_of_cons. auto.
  - split; [|split; [|done]].
    + intros _. destruct (never model) as [e|]; eexists; done.
    + intros name. by destruct (never model).
Qed.

End tokenizer_facts.

Section tokenizer_methods.

Import TikTokenTokenizer.


End tokenizer_methods.

Lemma tokenizer_exists_for_every_text_model_witness :
  TikTokenTokenizer.getEncodingNameForModel (Exn := unit) (fun _ => None)
    "text-davinci-003" = inr "p50k_base" ∧
  TikTokenTokenizer.getEncodingNameForModel (Exn := unit) (fun _ => None)
    "curie" = inr "r50k_base".
Proof.
  split.
  - destruct (tokenizer_exists_for_every_text_model (Exn := unit)
                (fun _ => None) (fun _ => Samples.char_tiktoken)
                "text-davinci-003" 4096 eq_refl) as (name & Hname & _ & ->).
    exact Hname.
  - destruct (tokenizer_exists_for_every_text_model (Exn := unit)
                (fun _ => None) (fun _ => Samples.char_tiktoken)
                "curie" 2048 eq_refl) as (name & Hname & _ & ->).
    exact Hname.
Defined.

Lemma getEncodingNameForModel_unknown_model_throws_witness :
  TikTokenTokenizer.getEncodingNameForModel (Exn := unit) (fun _ => None)
    "gpt-5"
  = inl (TikTokenTokenizer.Error "Unknown model: gpt-5").
Proof.
  destruct (proj1 (getEncodingNameForModel_unknown_model_throws
                     (Exn := unit) (fun _ => None)
                     (fun _ => Samples.char_tiktoken) "gpt-5"))
    as (e & He & _ & Hmsg).
  - apply (bool_decide_unpack _). vm_compute. exact I.
  - rewrite He. f_equal. exact (Hmsg eq_refl).
Defined.


(* ===================================================================== *)
(** * Further properties: OpenAITextGenerationModel                       *)
(* ===================================================================== *)

Section text_model_facts.
Context {Host : Type}.
Variable getTiktokenTokenizerForModel : JS.value Host -> JS.value Host.

Import OpenAITextGenerationModel.

Implicit Types (h : gmap JS.loc (gmap string (JS.value Host))).
Implicit Types (o : gmap string (JS.value Host)).

(** An instance read through a store in which every object that was live
    is unchanged. *)
Lemma instance_at_frame h h' this inst :
  (∀ l, is_Some (h !! l) → h' !! l = h !! l) →
  instance_at h this = Some inst →
  instance_at h' this = Some inst.
Proof.
  intros Hframe. unfold instance_at.
  destruct (h !! this) as [o|] eqn:Hthis; [|done].
  rewrite (Hframe this (mk_is_Some _ _ Hthis)), Hthis.
  destruct (JS.get o "settings") as [| | | | |ls|]; simpl; try done.
  destruct (h !! ls) as [s|] eqn:Hs; [|done].
  by rewrite (Hframe ls (mk_is_Some _ _ Hs)), Hs.
Qed.


(** What the constructor returns for a known model and a settings
    reference. *)
Lemma text_new_with_settings h (baseUrl apiKey model : JS.value Host)
    (s : JS.loc) (maxTokens : Z) :
  OPENAI_TEXT_GENERATION_MODELS !! JS.toString model = Some maxTokens →
  new getTiktokenTokenizerForModel baseUrl apiKey model (JS.VRef s) h
  = inr (Store.alloc
           (JS.literal
              [ ("provider", JS.VStr "openai");
                ("baseUrl", baseUrl);
                ("apiKey", apiKey);
                ("model", model);
                ("settings", JS.VRef s);
                ("tokenizer", getTiktokenTokenizerForModel model);
                ("maxTokens", JS.VNum maxTokens) ])
           h).
Proof. intros Hmodel. unfold new. by rewrite Hmodel. Qed.


(** X8.  The constructor keeps the settings object it is given, it does
    not copy it: the object is left as it was, the new instance reads its
    settings from it, and whatever that object is changed to afterwards
    is what the instance's settings then are. *)
Theorem text_constructor_shares_settings_object h
    (baseUrl apiKey model : JS.value Host) (s : JS.loc)
    (settings : gmap string (JS.value Host)) (maxTokens : Z) :
  h !! s = Some settings →
  OPENAI_TEXT_GENERATION_MODELS !! JS.toString model = Some maxTokens →
  ∃ this h',
    new getTiktokenTokenizerForModel baseUrl apiKey model (JS.VRef s) h
    = inr (this, h') ∧
    this ≠ s ∧
    h' !! s = Some settings ∧
    ∀ later,
      instance_at (<[s := later]> h') this =
        Some {| OpenAITextGenerationModel.baseUrl := baseUrl;
                OpenAITextGenerationModel.apiKey := apiKey;
                OpenAITextGenerationModel.model := model;
                OpenAITextGenerationModel.settings := later |}.
Proof.
  intros Hs Hmodel.
  rewrite (text_new_with_settings h baseUrl apiKey model s maxTokens Hmodel).
  match goal with
  | |- context [Store.alloc ?lit h] =>
      destruct (Store.alloc lit h) as [this h'] eqn:Halloc;
      apply alloc_spec in Halloc as (Hfresh & Hnew & Hlive)
  end.
  assert (this ≠ s) as Hne by (intros ->; congruence).
  exists this, h'. split; [done|]. split; [done|]. split.
  - rewrite Hlive; [done|]. by rewrite Hs.
  - intros later. unfold instance_at.
    rewrite lookup_insert_ne by done. rewrite Hnew.
    literal_lookup. by rewrite lookup_insert_eq.
Qed.

(** X9.  Without a settings argument the constructor creates an empty
    settings object of its own: the settings of the new instance are
    empty, and the object that holds them did not exist before. *)
Theorem text_constructor_default_settings h
    (baseUrl apiKey model : JS.value Host) (maxTokens : Z) :
  OPENAI_TEXT_GENERATION_MODELS !! JS.toString model = Some maxTokens →
  ∃ this h' o s,
    new getTiktokenTokenizerForModel baseUrl apiKey model JS.VUndefined h
    = inr (this, h') ∧
    h' !! this = Some o ∧
    JS.get o "settings" = JS.VRef s ∧
    h !! s = None ∧ h !! this = None ∧ this ≠ s ∧
    (∀ l, is_Some (h !! l) → h' !! l = h !! l) ∧
    instance_at h' this =
      Some {| OpenAITextGenerationModel.baseUrl := baseUrl;
              OpenAITextGenerationModel.apiKey := apiKey;
              OpenAITextGenerationModel.model := model;
              OpenAITextGenerationModel.settings := ∅ |}.
Proof.
  intros Hmodel. unfold new.
  destruct (Store.alloc (∅ : gmap string (JS.value Host)) h)
    as [s h1] eqn:Hs.
  apply alloc_spec in Hs as (Hsfresh & Hsnew & Hslive).
  rewrite Hmodel. simpl.
  match goal with
  | |- context [Store.alloc ?lit h1] =>
      destruct (Store.alloc lit h1) as [this h'] eqn:Halloc;
      apply alloc_spec in Halloc as (Hfresh & Hnew & Hlive);
      exists this, h', lit, s
  end.
  assert (this ≠ s) as Hne by (intros ->; congruence).
  split; [done|]. split; [done|]. split; [by literal_lookup|].
  split; [done|]. split; [|split; [done|split]].
  - destruct (h !! this) as [o'|] eqn:Hold; [|done].
    rewrite <- (Hslive this) in Hold by by rewrite Hold. congruence.
  - intros l Hl. rewrite Hlive; [by apply Hslive|].
    by rewrite Hslive.
  - unfold instance_at. rewrite Hnew. literal_lookup.
    rewrite Hlive; rewrite Hsnew; done.
Qed.

End text_model_facts.

Section text_generate_facts.
Context {Host : Type}.

Import OpenAITextGenerationModel.

(** X10.  The request arguments of [generate] carry every entry of the
    model's settings as it is, the spread coming last.  When the settings
    have their declared type, the prompt is the input, and the model, API
    key and base URL are the instance's and the abort signal the
    context's; an argument that is neither one of the six named ones nor
    a settings entry is absent. *)
Theorem generate_passes_settings_and_keeps_prompt (this : instance Host)
    (input : string) (context : option (Run.Run Host)) :
  let arguments := generate_arguments this input context in
  (∀ k v, settings this !! k = Some v → arguments !! k = Some v) ∧
  (∀ k, k ∉ ["baseUrl"; "abortSignal"; "apiKey"; "prompt"; "model"; "user"] →
        arguments !! k = settings this !! k) ∧
  (settings_well_typed (settings this) →
   arguments !! "prompt" = Some (JS.VStr input) ∧
   arguments !! "model" = Some (model this) ∧
   arguments !! "apiKey" = Some (apiKey this) ∧
   arguments !! "baseUrl" = Some (baseUrl this) ∧
   arguments !! "abortSignal" = Some (Run.abortSignal_of context)).
Proof.
  cbn zeta. unfold generate_arguments.
  split; [|split].
  - intros k v Hk. by rewrite lookup_assign1, Hk.
  - intros k Hk. rewrite lookup_assign1.
    destruct (settings this !! k) as [v|]; [done|].
    unfold JS.literal. simpl foldl.
    rewrite !lookup_insert, lookup_empty.
    rewrite !not_elem_of_cons in Hk.
    destruct Hk as (H1 & H2 & H3 & H4 & H5 & H6 & _).
    repeat case_decide; congruence.
  - intros Htyped.
    assert (∀ k, k ∈ ["baseUrl"; "abortSignal"; "apiKey"; "prompt"; "model"] →
                 settings this !! k = None) as Hno.
    { intros k Hk. destruct (settings this !! k) as [v|] eqn:Hv; [|done].
      apply Htyped in Hv. exfalso. revert Hk Hv.
      rewrite !elem_of_cons, elem_of_nil.
      intros [->|[->|[->|[->|[->|[]]]]]] Hv;
        by apply (bool_decide_pack _) in Hv. }
    rewrite !lookup_assign1.
    rewrite !Hno by (rewrite !elem_of_cons; auto 10).
    repeat split; by literal_lookup.
Qed.

End text_generate_facts.

Lemma generate_passes_settings_and_keeps_prompt_witness :
  OpenAITextGenerationModel.generate_arguments Samples.text_instance
    "Write a short story" (Some (Samples.text_run "alice"))
    !! "prompt" = Some (JS.VStr "Write a short story") ∧
  OpenAITextGenerationModel.generate_arguments Samples.text_instance
    "Write a short story" (Some (Samples.text_run "alice"))
    !! "temperature" = Some (JS.VNum 1).
Proof.
  pose proof (generate_passes_settings_and_keeps_prompt
                Samples.text_instance "Write a short story"
                (Some (Samples.text_run "alice"))) as (Hpass & _ & Hkeep).
  split.
  - apply Hkeep. apply (bool_decide_unpack _). vm_compute. exact I.
  - apply Hpass. vm_compute. reflexivity.
Defined.

(* ===================================================================== *)
(** * Further properties: withSettings, chained                           *)
(* ===================================================================== *)

Section withSettings_chain.
Context {Host Handler Opaque : Type}.
Variable getTiktokenTokenizerForModel : JS.value Host -> JS.value Host.

Implicit Types (h : gmap JS.loc (gmap string (JS.value Host))).
Implicit Types (g : gmap JS.loc
                      (gmap string
                         (JS.value (OpenAIImageGenerationModel.host Handler Opaque)))).

(** A live object referred to by a value stays what it was in a store
    that keeps every live object. *)
Lemma deref_frame {H : Type}
    (h h' : gmap JS.loc (gmap string (JS.value H))) (v : JS.value H) s :
  (∀ l, is_Some (h !! l) → h' !! l = h !! l) →
  Store.deref h v = Some s → Store.deref h' v = Some s.
Proof.
  intros Hframe. destruct v; simpl; try done.
  intros Hl. by rewrite Hframe by by rewrite Hl.
Qed.

(** One call of the text model's [withSettings] on live objects. *)
Lemma text_withSettings_result h this (additionalSettings : JS.value Host)
    o old additional maxTokens :
  h !! this = Some o →
  Store.deref h (JS.get o "settings") = Some old →
  Store.deref h additionalSettings = Some additional →
  OpenAITextGenerationModel.OPENAI_TEXT_GENERATION_MODELS
    !! JS.toString (JS.get o "model") = Some maxTokens →
  ∃ this' h' o',
    OpenAITextGenerationModel.withSettings getTiktokenTokenizerForModel
      this additionalSettings h = inr (this', h') ∧
    h' !! this' = Some o' ∧
    JS.get o' "baseUrl" = JS.get o "baseUrl" ∧
    JS.get o' "apiKey" = JS.get o "apiKey" ∧
    JS.get o' "model" = JS.get o "model" ∧
    JS.get o' "maxTokens" = JS.VNum maxTokens ∧
    Store.deref h' (JS.get o' "settings")
      = Some (JS.Object_assign ∅ [Some old; Some additional]) ∧
    (∀ l, is_Some (h !! l) → h' !! l = h !! l).
Proof.
  intros Hthis Hold Hadd Hmodel.
  pose proof (text_withSettings_frame getTiktokenTokenizerForModel h this
                additionalSettings) as Hframe.
  rewrite (text_withSettings_store getTiktokenTokenizerForModel h this
             additionalSettings o old additional maxTokens) in * by done.
  match goal with
  | |- context [Store.alloc ?lit ?h2] =>
      destruct (Store.alloc lit h2) as [this' h'] eqn:Halloc;
      apply alloc_spec in Halloc as (_ & Hnew & Hlive);
      exists this', h', lit
  end.
  split; [done|]. split; [done|].
  split; [by literal_lookup|]. split; [by literal_lookup|].
  split; [by literal_lookup|]. split; [by literal_lookup|].
  split.
  - literal_lookup. rewrite Hlive; rewrite lookup_insert_eq; done.
  - intros l Hl. by apply (Hframe this' h' l eq_refl).
Qed.

(** One call of the image model's [withSettings] on live objects. *)
Lemma image_withSettings_result g this
    (additionalSettings : JS.value (OpenAIImageGenerationModel.host Handler Opaque))
    o old additional :
  g !! this = Some o →
  Store.deref g (JS.get o "settings") = Some old →
  Store.deref g additionalSettings = Some additional →
  ∃ this' g' o',
    OpenAIImageGenerationModel.withSettings this additionalSettings g
      = (this', g') ∧
    g' !! this' = Some o' ∧
    Store.deref g' (JS.get o' "settings")
      = Some (JS.Object_assign ∅ [Some old; Some additional]) ∧
    (∀ l, is_Some (g !! l) → g' !! l = g !! l).
Proof.
  intros Hthis Hold Hadd.
  pose proof (image_withSettings_frame g this additionalSettings) as Hframe.
  rewrite (image_withSettings_store g this additionalSettings o old
             additional) in * by done.
  match goal with
  | |- context [Store.alloc ?lit ?g2] =>
      destruct (Store.alloc lit g2) as [this' g'] eqn:Halloc;
      apply alloc_spec in Halloc as (_ & Hnew & Hlive);
      exists this', g', lit
  end.
  split; [done|]. split; [done|]. split.
  - literal_lookup. rewrite Hlive; rewrite lookup_insert_eq; done.
  - intros l Hl. by apply Hframe.
Qed.

Lemma lookup_Object_assign_chain {H : Type}
    (old a b : gmap string (JS.value H)) (k : string) :
  JS.Object_assign ∅ [Some (JS.Object_assign ∅ [Some old; Some a]); Some b]
    !! k
  = (b !! k) or_else (a !! k) or_else (old !! k).
Proof.
  rewrite !lookup_Object_assign_two. by destruct (b !! k).
Qed.

(** X11.  [model.withSettings(a).withSettings(b)] on the text model: both
    calls return an instance, the last one has the original's base URL,
    API key, model and token limit, its settings hold at each key the
    entry of [b], else of [a], else of the original, and the original
    instance still has the settings it had. *)
Theorem text_withSettings_twice h this (a b : JS.value Host)
    o old a_settings b_settings maxTokens
    (inst : OpenAITextGenerationModel.instance Host) :
  h !! this = Some o →
  Store.deref h (JS.get o "settings") = Some old →
  Store.deref h a = Some a_settings →
  Store.deref h b = Some b_settings →
  OpenAITextGenerationModel.OPENAI_TEXT_GENERATION_MODELS
    !! JS.toString (JS.get o "model") = Some maxTokens →
  OpenAITextGenerationModel.instance_at h this = Some inst →
  ∃ this1 h1 this2 h2 o2 new,
    OpenAITextGenerationModel.withSettings getTiktokenTokenizerForModel
      this a h = inr (this1, h1) ∧
    OpenAITextGenerationModel.withSettings getTiktokenTokenizerForModel
      this1 b h1 = inr (this2, h2) ∧
    h2 !! this2 = Some o2 ∧
    JS.get o2 "maxTokens" = JS.VNum maxTokens ∧
    OpenAITextGenerationModel.instance_at h2 this2 =
      Some {| OpenAITextGenerationModel.baseUrl := JS.get o "baseUrl";
              OpenAITextGenerationModel.apiKey := JS.get o "apiKey";
              OpenAITextGenerationModel.model := JS.get o "model";
              OpenAITextGenerationModel.settings := new |} ∧
    (∀ k : string,
        new !! k =
          (b_settings !! k) or_else (a_settings !! k) or_else (old !! k)) ∧
    OpenAITextGenerationModel.instance_at h2 this = Some inst.
Proof.
  intros Hthis Hold Ha Hb Hmodel Hinst.
  destruct (text_withSettings_result h this a o old a_settings maxTokens)
    as (this1 & h1 & o1 & Hcall1 & Hthis1 & Hurl1 & Hkey1 & Hmodel1 & _
        & Hset1 & Hframe1); try done.
  destruct (text_withSettings_result h1 this1 b o1
              (JS.Object_assign ∅ [Some old; Some a_settings])
              b_settings maxTokens)
    as (this2 & h2 & o2 & Hcall2 & Hthis2 & Hurl2 & Hkey2 & Hmodel2 & Hmax2
        & Hset2 & Hframe2); try done.
  { by apply (deref_frame h h1). }
  { by rewrite Hmodel1. }
  exists this1, h1, this2, h2, o2,
    (JS.Object_assign ∅
       [Some (JS.Object_assign ∅ [Some old; Some a_settings]);
        Some b_settings]).
  split; [done|]. split; [done|]. split; [done|]. split; [done|].
  split; [|split].
  - unfold OpenAITextGenerationModel.instance_at.
    rewrite Hthis2, Hset2, Hurl2, Hkey2, Hmodel2, Hurl1, Hkey1, Hmodel1.
    done.
  - apply lookup_Object_assign_chain.
  - apply (instance_at_frame h1 h2); [done|].
    by apply (instance_at_frame h h1).
Qed.

(** X12.  [model.withSettings(a).withSettings(b)] on the image model: the
    last instance's settings hold at each key the entry of [b], else of
    [a], else of the original, and the original instance still has the
    settings it had. *)
Theorem image_withSettings_twice g this
    (a b : JS.value (OpenAIImageGenerationModel.host Handler Opaque))
    o old a_settings b_settings :
  g !! this = Some o →
  Store.deref g (JS.get o "settings") = Some old →
  Store.deref g a = Some a_settings →
  Store.deref g b = Some b_settings →
  ∃ this1 g1 this2 g2 new,
    OpenAIImageGenerationModel.withSettings this a g = (this1, g1) ∧
    OpenAIImageGenerationModel.withSettings this1 b g1 = (this2, g2) ∧
    OpenAIImageGenerationModel.settings_at g2 this2 = Some new ∧
    (∀ k : string,
        new !! k =
          (b_settings !! k) or_else (a_settings !! k) or_else (old !! k)) ∧
    OpenAIImageGenerationModel.settings_at g2 this = Some old.
Proof.
  intros Hthis Hold Ha Hb.
  destruct (image_withSettings_result g this a o old a_settings)
    as (this1 & g1 & o1 & Hcall1 & Hthis1 & Hset1 & Hframe1); try done.
  destruct (image_withSettings_result g1 this1 b o1
              (JS.Object_assign ∅ [Some old; Some a_settings]) b_settings)
    as (this2 & g2 & o2 & Hcall2 & Hthis2 & Hset2 & Hframe2); try done.
  { by apply (deref_frame g g1). }
  exists this1, g1, this2, g2,
    (JS.Object_assign ∅
       [Some (JS.Object_assign ∅ [Some old; Some a_settings]);
        Some b_settings]).
  split; [done|]. split; [done|]. split; [|split].
  - unfold OpenAIImageGenerationModel.settings_at. by rewrite Hthis2.
  - apply lookup_Object_assign_chain.
  - unfold OpenAIImageGenerationModel.settings_at.
    rewrite Hframe2 by (rewrite Hframe1; by rewrite Hthis).
    rewrite Hframe1, Hthis by by rewrite Hthis.
    apply (deref_frame g1 g2); [done|]. by apply (deref_frame g g1).
Qed.

End withSettings_chain.

(* ===================================================================== *)
(** * Further properties: the image generation request                    *)
(* ===================================================================== *)

(** A literal key is not among other literal keys. *)
Ltac distinct_keys :=
  rewrite !not_elem_of_cons;
  repeat split; first [discriminate | apply not_elem_of_nil].

Section image_request_facts.
Context {Handler Opaque RESULT World Exn : Type}.

Import OpenAIImageGenerationModel.

Variable failedOpenAICallResponseHandler : Handler.
Variable base64JsonHandler : Handler.
Variable postJsonToApi :
  PostJsonArguments Handler Opaque -> World ->
  World * (thrown Exn + RESULT).
Variable callWithRetryAndThrottle :
  JS.value (host Handler Opaque) -> JS.value (host Handler Opaque) ->
  Effect.M World (event Handler Opaque) (thrown Exn) RESULT ->
  Effect.M World (event Handler Opaque) (thrown Exn) RESULT.

Implicit Types (settings : gmap string (JS.value (host Handler Opaque))).
Implicit Types (per_call : option (gmap string (JS.value (host Handler Opaque)))).
Implicit Types (key : JS.value (host Handler Opaque)).
Implicit Types (rf : ResponseFormatType Handler).
Implicit Types (rn : option (Run.Run (host Handler Opaque))).

(** The call settings of a call that names a response format. *)
Local Abbreviation settings_of_call key settings prompt rf fid per_call rn :=
  (callSettings key settings prompt
     (Some {| responseFormat := rf; functionId := fid;
              opt_settings := per_call; run := rn |})).

(** The request built from them: the response format is there, so no
    [TypeError]. *)
Lemma request_of_call key settings (prompt : string) rf
    (fid : option string) per_call rn :
  request failedOpenAICallResponseHandler
    (settings_of_call key settings prompt rf fid per_call rn)
  = inr {| url :=
             JS.toString
               (JS.with_default
                  (JS.get (settings_of_call key settings prompt rf fid
                             per_call rn) "baseUrl")
                  (JS.VStr "https://api.openai.com/v1"))
             +:+ "/images/generations";
           headers_Authorization :=
             "Bearer "
             +:+ JS.toString
                   (JS.get (settings_of_call key settings prompt rf fid
                              per_call rn) "apiKey");
           body :=
             JS.literal
               [ ("prompt",
                   JS.get (settings_of_call key settings prompt rf fid
                             per_call rn) "prompt");
                 ("n",
                   JS.get (settings_of_call key settings prompt rf fid
                             per_call rn) "n");
                 ("size",
                   JS.get (settings_of_call key settings prompt rf fid
                             per_call rn) "size");
                 ("response_format", JS.VStr (type rf));
                 ("user",
                   JS.get (settings_of_call key settings prompt rf fid
                             per_call rn) "user") ];
           failedResponseHandler := failedOpenAICallResponseHandler;
           successfulResponseHandler := Some (handler rf);
           post_abortSignal :=
             JS.get (settings_of_call key settings prompt rf fid
                       per_call rn) "abortSignal" |}.
Proof.
  unfold request.
  assert (JS.get (settings_of_call key settings prompt rf fid per_call rn)
            "responseFormat" = JS.VHost (HResponseFormat rf)) as ->.
  { apply get_lookup. by rewrite lookup_callSettings. }
  done.
Qed.

(** A setting outside the two fixed layers: per-call first, then the
    model's. *)
Lemma get_callSettings_plain key settings (prompt : string) rf
    (fid : option string) per_call rn (k : string) :
  k ∉ ["abortSignal"; "prompt"; "responseFormat"; "apiKey"; "user"] →
  JS.get (settings_of_call key settings prompt rf fid per_call rn) k
  = default JS.VUndefined
      ((per_call ≫= (.!! k)) or_else (settings !! k)).
Proof.
  intros Hk. rewrite !not_elem_of_cons in Hk.
  destruct Hk as (H1 & H2 & H3 & H4 & H5 & _).
  unfold JS.get. rewrite lookup_callSettings. simpl.
  repeat case_decide; try congruence.
  by destruct (per_call ≫= lookup k), (settings !! k).
Qed.

(** X13.  The endpoint of the request is the base URL followed by
    [/images/generations], where the base URL is the per-call one if the
    per-call settings name one, else the model's, else — also when the
    one named is [undefined] — [https://api.openai.com/v1]. *)
Theorem image_request_endpoint key settings (prompt : string) rf
    (fid : option string) per_call rn :
  ∃ req,
    request failedOpenAICallResponseHandler
      (settings_of_call key settings prompt rf fid per_call rn) = inr req ∧
    (∀ u, per_call ≫= (.!! "baseUrl") = Some (JS.VStr u) →
          url req = u +:+ "/images/generations") ∧
    (∀ u, per_call ≫= (.!! "baseUrl") = None →
          settings !! "baseUrl" = Some (JS.VStr u) →
          url req = u +:+ "/images/generations") ∧
    (((per_call ≫= (.!! "baseUrl")) or_else (settings !! "baseUrl")) = None ∨
     ((per_call ≫= (.!! "baseUrl")) or_else (settings !! "baseUrl"))
       = Some JS.VUndefined →
     url req = "https://api.openai.com/v1/images/generations").
Proof.
  eexists. split; [apply request_of_call|]. simpl.
  rewrite get_callSettings_plain
    by distinct_keys.
  split; [|split].
  - by intros u ->.
  - by intros u -> ->.
  - by intros [-> | ->].
Qed.

(** X14.  The body of the request has exactly the entries [prompt], [n],
    [size], [response_format] and [user] — never the API key, the base
    URL, or the retry and throttle settings.  Its prompt is the prompt of
    the call and its response format the type of the format of the call,
    whatever the settings hold; [n] and [size] are the per-call ones if
    given, else the model's, else [undefined]. *)
Theorem image_request_body key settings (prompt : string) rf
    (fid : option string) per_call rn :
  ∃ req,
    request failedOpenAICallResponseHandler
      (settings_of_call key settings prompt rf fid per_call rn) = inr req ∧
    (∀ k : string,
        is_Some (body req !! k) ↔
        k ∈ ["prompt"; "n"; "size"; "response_format"; "user"]) ∧
    body req !! "prompt" = Some (JS.VStr prompt) ∧
    body req !! "response_format" = Some (JS.VStr (type rf)) ∧
    body req !! "n"
      = Some (default JS.VUndefined
                ((per_call ≫= (.!! "n")) or_else (settings !! "n"))) ∧
    body req !! "size"
      = Some (default JS.VUndefined
                ((per_call ≫= (.!! "size")) or_else (settings !! "size"))).
Proof.
  eexists. split; [apply request_of_call|]. simpl.
  split; [|split; [|split; [|split]]].
  - intros k. unfold JS.literal. simpl foldl.
    rewrite !lookup_insert, lookup_empty, !elem_of_cons, elem_of_nil.
    repeat case_decide; subst; split;
      try (intros [? ?]; done); try (intros _; by eexists);
      try (intros [->|[->|[->|[->|[->|[]]]]]]; done); auto 10.
  - literal_lookup. f_equal. apply get_lookup.
    by rewrite lookup_callSettings.
  - by literal_lookup.
  - literal_lookup. f_equal. fold (JS.get (settings_of_call key settings
      prompt rf fid per_call rn) "n").
    apply get_callSettings_plain.
    distinct_keys.
  - literal_lookup. f_equal. fold (JS.get (settings_of_call key settings
      prompt rf fid per_call rn) "size").
    apply get_callSettings_plain.
    distinct_keys.
Qed.

End image_request_facts.

Section image_call_facts.
Context {Handler Opaque RESULT World Exn : Type}.

Import OpenAIImageGenerationModel.

Variable failedOpenAICallResponseHandler : Handler.
Variable base64JsonHandler : Handler.
Variable postJsonToApi :
  PostJsonArguments Handler Opaque -> World ->
  World * (thrown Exn + RESULT).
Variable callWithRetryAndThrottle :
  JS.value (host Handler Opaque) -> JS.value (host Handler Opaque) ->
  Effect.M World (event Handler Opaque) (thrown Exn) RESULT ->
  Effect.M World (event Handler Opaque) (thrown Exn) RESULT.

Implicit Types (settings : gmap string (JS.value (host Handler Opaque))).
Implicit Types (per_call : option (gmap string (JS.value (host Handler Opaque)))).
Implicit Types (key : JS.value (host Handler Opaque)).
Implicit Types (rf : ResponseFormatType Handler).
Implicit Types (rn : option (Run.Run (host Handler Opaque))).
Implicit Types (env : gmap string string).

Local Abbreviation settings_of_call key settings prompt rf fid per_call rn :=
  (callSettings key settings prompt
     (Some {| responseFormat := rf; functionId := fid;
              opt_settings := per_call; run := rn |})).

(** The [apiKey] entry of the call settings, layer by layer. *)
Lemma get_callSettings_apiKey key settings (prompt : string) rf
    (fid : option string) per_call rn :
  JS.get (settings_of_call key settings prompt rf fid per_call rn) "apiKey"
  = default key
      ((per_call ≫= (.!! "apiKey")) or_else (settings !! "apiKey")).
Proof.
  unfold JS.get. rewrite lookup_callSettings. simpl.
  by destruct (per_call ≫= lookup "apiKey"), (settings !! "apiKey").
Qed.

(** X15.  The [Authorization] header of the request, once the [apiKey]
    getter has returned a key.  A per-call [apiKey] entry is what is
    sent.  Without one, the getter's key is sent when the model's settings
    have no [apiKey] entry or a proper one; but when they have an
    [apiKey] entry that is [undefined] or [null], the getter's key — which
    then comes from the environment — is replaced by that entry, and the
    header reads [Bearer undefined] or [Bearer null]. *)
Theorem image_request_authorization settings env (prompt : string) rf
    (fid : option string) per_call rn key :
  apiKey (Exn := Exn) settings env = inr key →
  ∃ req,
    request failedOpenAICallResponseHandler
      (settings_of_call key settings prompt rf fid per_call rn) = inr req ∧
    (∀ v, per_call ≫= (.!! "apiKey") = Some v →
          headers_Authorization req = "Bearer " +:+ JS.toString v) ∧
    (per_call ≫= (.!! "apiKey") = None →
     (settings !! "apiKey" = None ∨
      JS.nullish (JS.get settings "apiKey") = false →
      headers_Authorization req = "Bearer " +:+ JS.toString key) ∧
     (∀ v, settings !! "apiKey" = Some v → JS.nullish v = true →
           (∃ k, env !! "OPENAI_API_KEY" = Some k ∧ key = JS.VStr k) ∧
           headers_Authorization req = "Bearer " +:+ JS.toString v ∧
           (headers_Authorization req = "Bearer undefined" ∨
            headers_Authorization req = "Bearer null"))).
Proof.
  intros Hkey.
  eexists. split; [apply request_of_call|]. simpl.
  rewrite get_callSettings_apiKey.
  split.
  - by intros v ->.
  - intros ->. split.
    + intros [-> | Hset]; [done|].
      destruct (settings !! "apiKey") as [v|] eqn:Hv; [|done]. simpl.
      revert Hkey. unfold apiKey, JS.coalesce.
      rewrite Hset. simpl. rewrite Hset.
      unfold JS.get. rewrite Hv. simpl. by intros [= ->].
    + intros v Hv Hnull. rewrite Hv. simpl.
      split; [|split; [done|by destruct v; try done; auto]].
      revert Hkey. unfold apiKey, JS.coalesce, JS.get.
      rewrite Hv. simpl. rewrite Hnull.
      destruct (env !! "OPENAI_API_KEY") as [k|]; simpl; [|done].
      intros [= <-]. by exists k.
Qed.

(** X16.  [callAPI] without options, on a model with a key: the call that
    is handed to the retry wrapper throws a [TypeError] when it is run —
    the response format is [undefined], whatever the settings hold — and
    it does so before any request: it leaves the world and the trace of
    requests as they are. *)
Theorem image_callAPI_without_options settings env (prompt : string) key :
  apiKey (Exn := Exn) settings env = inr key →
  callAPI failedOpenAICallResponseHandler postJsonToApi
    callWithRetryAndThrottle settings env prompt None
  = callWithRetryAndThrottle
      (JS.get settings "retry") (JS.get settings "throttle")
      (callOpenAIImageGenerationAPI failedOpenAICallResponseHandler
         postJsonToApi (callSettings key settings prompt None)) ∧
  ∀ s : Effect.state World (event Handler Opaque),
    callOpenAIImageGenerationAPI failedOpenAICallResponseHandler
      postJsonToApi (callSettings key settings prompt None) s
    = (s, inl (TypeError (JS.CannotReadProperty "type"))).
Proof.
  intros Hkey. split.
  - unfold callAPI. rewrite Hkey. f_equal.
    + unfold JS.get. rewrite lookup_callSettings. simpl.
      by destruct (settings !! "retry").
    + unfold JS.get. rewrite lookup_callSettings. simpl.
      by destruct (settings !! "throttle").
  - intros s. unfold callOpenAIImageGenerationAPI, request.
    assert (JS.get (callSettings key settings prompt None) "responseFormat"
            = JS.VUndefined) as ->.
    { apply get_lookup. by rewrite lookup_callSettings. }
    done.
Qed.

(** X17.  [generateImageResponse] always asks for base64 JSON: once the
    key is there, it makes the call that posts one request whose
    [response_format] is [b64_json], decoded by the base64 JSON handler,
    whose prompt is the given prompt and whose abort signal is the run's —
    it never meets the [TypeError] of a missing response format, with or
    without options. *)
Theorem generateImageResponse_requests_base64Json settings env
    (prompt : string) (options : option (ModelFunctionOptions Handler Opaque))
    key :
  apiKey (Exn := Exn) settings env = inr key →
  ∃ req retry throttle,
    generateImageResponse failedOpenAICallResponseHandler base64JsonHandler
      postJsonToApi callWithRetryAndThrottle settings env prompt options
    = callWithRetryAndThrottle retry throttle
        (Effect.perform (PostJsonToApi req) (postJsonToApi req)) ∧
    body req !! "response_format" = Some (JS.VStr "b64_json") ∧
    body req !! "prompt" = Some (JS.VStr prompt) ∧
    successfulResponseHandler req = Some base64JsonHandler ∧
    failedResponseHandler req = failedOpenAICallResponseHandler ∧
    post_abortSignal req
      = Run.abortSignal_of (from_option mfo_run None options).
Proof.
  intros Hkey.
  unfold generateImageResponse, callAPI. rewrite Hkey.
  unfold callOpenAIImageGenerationAPI. rewrite request_of_call.
  eexists _, _, _. split; [reflexivity|]. simpl.
  split; [by literal_lookup|]. split; [|split; [done|split; [done|]]].
  - literal_lookup. f_equal. apply get_lookup.
    by rewrite lookup_callSettings.
  - apply get_lookup. by rewrite lookup_callSettings.
Qed.

End image_call_facts.

(* ===================================================================== *)
(** * Further properties: the settings projection for events              *)
(* ===================================================================== *)

Section settingsForEvent_more.
Context {Handler Opaque : Type}.

Import OpenAIImageGenerationModel.

Implicit Types (settings old additional
                : gmap string (JS.value (host Handler Opaque))).

(** The projection, key by key. *)
Lemma lookup_settingsForEvent settings (k : string) :
  settingsForEvent settings !! k =
    if bool_decide (k ∈ eventSettingProperties) then settings !! k else None.
Proof.
  apply option_eq. intros v.
  unfold settingsForEvent, JS.Object_fromEntries, JS.Object_entries.
  rewrite lookup_literal_NoDup
    by apply NoDup_fst_filter, NoDup_fst_map_to_list.
  rewrite list_elem_of_In, filter_In, <- list_elem_of_In.
  rewrite elem_of_map_to_list.
  unfold JS.includes.
  destruct (bool_decide (k ∈ eventSettingProperties)); intuition congruence.
Qed.

(** X18.  The event projection is a part of the settings (it changes no
    value), projecting twice is projecting once, and projection commutes
    with the merge of [withSettings]: the projection of
    [Object.assign({}, old, additional)] is the merge of the two
    projections. *)
Theorem settingsForEvent_projects settings old additional :
  settingsForEvent settings ⊆ settings ∧
  settingsForEvent (settingsForEvent settings) = settingsForEvent settings ∧
  settingsForEvent (JS.Object_assign ∅ [Some old; Some additional])
  = JS.Object_assign ∅
      [Some (settingsForEvent old); Some (settingsForEvent additional)].
Proof.
  split; [|split].
  - apply map_subseteq_spec. intros k v.
    rewrite lookup_settingsForEvent. by case_bool_decide.
  - apply map_eq. intros k. rewrite !lookup_settingsForEvent.
    by case_bool_decide.
  - apply map_eq. intros k.
    rewrite lookup_settingsForEvent, !lookup_Object_assign_two,
      !lookup_settingsForEvent.
    by case_bool_decide.
Qed.

End settingsForEvent_more.

(* ===================================================================== *)
(** * The further properties at work                                      *)
(* ===================================================================== *)


Lemma text_constructor_shares_settings_object_witness :
  ∃ this h',
    OpenAITextGenerationModel.new Samples.sample_tokenizer JS.VUndefined
      (JS.VStr "sk-test") (JS.VStr "curie") (JS.VRef 1) Samples.text_store
    = inr (this, h') ∧
    OpenAITextGenerationModel.settings
      <$> OpenAITextGenerationModel.instance_at
            (<[1%positive := {[ "temperature" := JS.VNum 0 ]}]> h') this
    = Some {[ "temperature" := JS.VNum 0 ]}.
Proof.
  destruct (text_constructor_shares_settings_object
              Samples.sample_tokenizer Samples.text_store JS.VUndefined
              (JS.VStr "sk-test") (JS.VStr "curie") 1%positive
              {[ "temperature" := JS.VNum 1 ]} 2048 eq_refl eq_refl)
    as (this & h' & Hnew & _ & _ & Hlater).
  exists this, h'. split; [exact Hnew|]. by rewrite Hlater.
Defined.

Lemma text_constructor_default_settings_witness :
  ∃ this h',
    OpenAITextGenerationModel.new Samples.sample_tokenizer JS.VUndefined
      (JS.VStr "sk-test") (JS.VStr "text-davinci-003") JS.VUndefined ∅
    = inr (this, h') ∧
    OpenAITextGenerationModel.settings
      <$> OpenAITextGenerationModel.instance_at h' this = Some ∅.
Proof.
  destruct (text_constructor_default_settings Samples.sample_tokenizer ∅
              JS.VUndefined (JS.VStr "sk-test") (JS.VStr "text-davinci-003")
              4096 eq_refl)
    as (this & h' & o & s & Hnew & _ & _ & _ & _ & _ & _ & Hinst).
  exists this, h'. split; [exact Hnew|]. by rewrite Hinst.
Defined.

Lemma text_withSettings_twice_witness :
  ∃ this1 h1 this2 h2 new,
    OpenAITextGenerationModel.withSettings Samples.sample_tokenizer
      3%positive (JS.VRef 2) Samples.text_store = inr (this1, h1) ∧
    OpenAITextGenerationModel.withSettings Samples.sample_tokenizer
      this1 (JS.VRef 1) h1 = inr (this2, h2) ∧
    OpenAITextGenerationModel.settings
      <$> OpenAITextGenerationModel.instance_at h2 this2 = Some new ∧
    new !! "maxTokens" = Some (JS.VNum 500) ∧
    new !! "temperature" = Some (JS.VNum 1).
Proof.
  destruct (text_withSettings_twice Samples.sample_tokenizer
              Samples.text_store 3%positive (JS.VRef 2) (JS.VRef 1)
              _ {[ "temperature" := JS.VNum 1 ]}
              {[ "maxTokens" := JS.VNum 500 ]}
              {[ "temperature" := JS.VNum 1 ]} 4096 _
              eq_refl eq_refl eq_refl eq_refl eq_refl eq_refl)
    as (this1 & h1 & this2 & h2 & o2 & new & H1 & H2 & _ & _ & Hinst
        & Hnew & _).
  exists this1, h1, this2, h2, new.
  split; [exact H1|]. split; [exact H2|]. split; [by rewrite Hinst|].
  split; (etransitivity; [apply Hnew | vm_compute; reflexivity]).
Defined.

Lemma image_withSettings_twice_witness :
  ∃ this1 g1 this2 g2 new,
    OpenAIImageGenerationModel.withSettings 3%positive (JS.VRef 2)
      Samples.image_store = (this1, g1) ∧
    OpenAIImageGenerationModel.withSettings this1 (JS.VRef 1) g1
      = (this2, g2) ∧
    OpenAIImageGenerationModel.settings_at g2 this2 = Some new ∧
    new !! "n" = Some (JS.VNum 2) ∧
    new !! "size" = Some (JS.VStr "512x512").
Proof.
  destruct (image_withSettings_twice Samples.image_store 3%positive
              (JS.VRef 2) (JS.VRef 1) _
              {[ "size" := JS.VStr "512x512" ]}
              {[ "n" := JS.VNum 2 ]}
              {[ "size" := JS.VStr "512x512" ]}
              eq_refl eq_refl eq_refl eq_refl)
    as (this1 & g1 & this2 & g2 & new & H1 & H2 & Hat & Hnew & _).
  exists this1, g1, this2, g2, new.
  split; [exact H1|]. split; [exact H2|]. split; [exact Hat|].
  split; (etransitivity; [apply Hnew | vm_compute; reflexivity]).
Defined.

Lemma image_request_endpoint_witness :
  ∃ req,
    OpenAIImageGenerationModel.request tt
      (OpenAIImageGenerationModel.callSettings (JS.VStr "sk-model")
         Samples.image_settings "a robot"
         (Some (Samples.call_options None "alice"))) = inr req ∧
    OpenAIImageGenerationModel.url req
      = "https://api.openai.com/v1/images/generations".
Proof.
  destruct (image_request_endpoint tt (JS.VStr "sk-model")
              Samples.image_settings "a robot"
              (OpenAIImageGenerationModel.ResponseFormat_base64Json tt)
              None None (Some (Samples.run_of "alice")))
    as (req & Hreq & _ & _ & Hdefault).
  exists req. split; [exact Hreq|].
  apply Hdefault. left. vm_compute. reflexivity.
Defined.

Lemma image_request_authorization_witness :
  OpenAIImageGenerationModel.apiKey (Exn := unit)
    Samples.image_settings_undefined_key {[ "OPENAI_API_KEY" := "sk-env" ]}
  = inr (JS.VStr "sk-env") ∧
  ∃ req,
    OpenAIImageGenerationModel.request tt
      (OpenAIImageGenerationModel.callSettings (JS.VStr "sk-env")
         Samples.image_settings_undefined_key "a robot"
         (Some (Samples.call_options None "alice"))) = inr req ∧
    OpenAIImageGenerationModel.headers_Authorization req
      = "Bearer undefined".
Proof.
  split; [vm_compute; reflexivity|].
  destruct (image_request_authorization (Exn := unit) tt
              Samples.image_settings_undefined_key
              {[ "OPENAI_API_KEY" := "sk-env" ]} "a robot"
              (OpenAIImageGenerationModel.ResponseFormat_base64Json tt)
              None None (Some (Samples.run_of "alice")) (JS.VStr "sk-env"))
    as (req & Hreq & _ & Hmodel).
  { vm_compute. reflexivity. }
  exists req. split; [exact Hreq|].
  destruct (Hmodel eq_refl) as [_ Hshadow].
  destruct (Hshadow JS.VUndefined) as (_ & Hheader & _);
    [vm_compute; reflexivity | reflexivity |].
  exact Hheader.
Defined.

Lemma image_callAPI_without_options_witness :
  OpenAIImageGenerationModel.callAPI tt Samples.sample_postJsonToApi
    Samples.call_once Samples.image_settings ∅ "a robot" None
    Samples.image_start
  = (Samples.image_start,
     inl (OpenAIImageGenerationModel.TypeError
            (JS.CannotReadProperty "type"))).
Proof.
  destruct (image_callAPI_without_options (Exn := unit) tt
              Samples.sample_postJsonToApi Samples.call_once
              Samples.image_settings ∅ "a robot" (JS.VStr "sk-model"))
    as [Hcall Hthrow].
  { vm_compute. reflexivity. }
  rewrite Hcall. unfold Samples.call_once. apply Hthrow.
Defined.

Lemma generateImageResponse_requests_base64Json_witness :
  ∃ req,
    (OpenAIImageGenerationModel.generateImageResponse tt tt
       Samples.sample_postJsonToApi Samples.call_once
       Samples.image_settings ∅ "a robot" None Samples.image_start).1
    = {| Effect.world := 1%nat;
         Effect.trace := [OpenAIImageGenerationModel.PostJsonToApi req] |} ∧
    OpenAIImageGenerationModel.body req !! "response_format"
      = Some (JS.VStr "b64_json").
Proof.
  destruct (generateImageResponse_requests_base64Json (Exn := unit) tt tt
              Samples.sample_postJsonToApi Samples.call_once
              Samples.image_settings ∅ "a robot" None (JS.VStr "sk-model"))
    as (req & retry & throttle & Hcall & Hformat & _).
  { vm_compute. reflexivity. }
  exists req. split; [|exact Hformat].
  rewrite Hcall. reflexivity.
Defined.
